(** * Workout trainer: a shallow embedding of the application and its icon tool

  The repository ships two builds of the single-page application,
  [src/App.tsx] (module [AppTsx] below) and a second full copy of the same
  file (module [Part000]).  They share the data model and the Day Workout
  view and differ in the HTTP helpers and in both storage adapters.  The
  icon generator [tools/gen-icons.mjs] is module [GenIcons]. *)

From Stdlib Require Import ZArith Ascii String Floats.PrimFloat Floats.SpecFloat Floats.FloatOps Uint63.
From stdpp Require Import base strings list gmap sorting pretty.

Set Warnings "-inexact-float,-register-all".
Local Open Scope Z_scope.

(** ** JavaScript values used by the program *)

Module Js.

(** Truthiness of an optional string: [undefined] and the empty string are
    falsy, every other string is truthy. *)
Definition truthy_str (o : option string) : bool :=
  match o with
  | Some s => negb (String.eqb s "")
  | None => false
  end.

(** [a || b] on optional strings. *)
Definition or_str (a b : option string) : option string :=
  if truthy_str a then a else b.

(** [a || lit] where [lit] is a non-empty string. *)
Definition or_lit (a : option string) (lit : string) : string :=
  match a with
  | Some s => if String.eqb s "" then lit else s
  | None => lit
  end.

(** [s.slice(i, j)] for [0 <= i <= j]. *)
Definition slice (i j : nat) (s : string) : string :=
  String.substring i (j - i) s.

(** Property key of a possibly absent string: [obj[undefined]] reads the
    property named "undefined". *)
Definition prop_key (o : option string) : string := default "undefined" o.

(** Binary64 numbers.  [Z2F] is exact for |z| < 2^53. *)
Definition Z2F (z : Z) : float :=
  if z <? 0 then PrimFloat.opp (PrimFloat.of_uint63 (Uint63.of_Z (- z)))
  else PrimFloat.of_uint63 (Uint63.of_Z z).

(** [Math.round]: the nearest integer, ties towards +infinity.  [None] for
    NaN and the infinities. *)
Definition Math_round (x : float) : option Z :=
  match Prim2SF x with
  | S754_zero _ => Some 0
  | S754_finite s m e =>
      let n := if s then Z.neg m else Z.pos m in
      if 0 <=? e then Some (n * 2 ^ e)
      else Some ((2 * n + 2 ^ (- e)) / (2 * 2 ^ (- e)))
  | S754_infinity _ | S754_nan => None
  end.

(** Stable sort with a JavaScript comparator: [cmp a b < 0] puts [a] first,
    elements that compare equal keep their order ([Array.prototype.sort]). *)
Fixpoint sort_insert {A} (cmp : A → A → Z) (x : A) (l : list A) : list A :=
  match l with
  | [] => [x]
  | y :: l' => if cmp x y <=? 0 then x :: l else y :: sort_insert cmp x l'
  end.

Definition sort {A} (cmp : A → A → Z) (l : list A) : list A :=
  foldr (sort_insert cmp) [] l.

(** *** Plain objects used as records keyed by strings

    The own properties in insertion order. *)
Definition obj (V : Type) : Type := list (string * V).

Fixpoint obj_get {V} (k : string) (o : obj V) : option V :=
  match o with
  | [] => None
  | (k', v) :: o' => if String.eqb k' k then Some v else obj_get k o'
  end.

(** [o[k] = v]: overwrite in place, or append a new property. *)
Fixpoint obj_set {V} (k : string) (v : V) (o : obj V) : obj V :=
  match o with
  | [] => [(k, v)]
  | (k', v') :: o' =>
      if String.eqb k' k then (k, v) :: o' else (k', v') :: obj_set k v o'
  end.

(** An array index is the canonical decimal form of an integer below
    2^32 - 1; such keys are enumerated first, in ascending order. *)
Definition digit_of (c : ascii) : option N :=
  let n := N_of_ascii c in
  if ((48 <=? n) && (n <=? 57))%N then Some (n - 48)%N else None.

Fixpoint digits_value (acc : N) (s : string) : option N :=
  match s with
  | EmptyString => Some acc
  | String c s' => d ← digit_of c; digits_value (10 * acc + d)%N s'
  end.

Definition array_index (s : string) : option N :=
  match s with
  | EmptyString => None
  | String "0"%char EmptyString => Some 0%N
  | String "0"%char _ => None
  | _ => n ← digits_value 0 s; if (n <? 4294967295)%N then Some n else None
  end.

Definition is_index {V} (kv : string * V) : bool :=
  bool_decide (is_Some (array_index kv.1)).

Definition index_cmp {V} (a b : string * V) : Z :=
  Z.of_N (default 0%N (array_index a.1)) - Z.of_N (default 0%N (array_index b.1)).

(** [Object.entries(o)] *)
Definition entries {V} (o : obj V) : list (string * V) :=
  sort index_cmp (filter (λ kv, is_index kv = true) o)
  ++ filter (λ kv, is_index kv ≠ true) o.

(** *** What every plain object inherits

    A property that an object does not own is looked up in its prototype,
    for an object written [{}] in [Object.prototype]: eleven functions and
    the accessor [__proto__], whose getter hands back the prototype itself.
    [Method name] is an inherited function with its [name] property. *)
Inductive builtin :=
| Method (name : string)
| ObjectPrototype.

Definition Object_prototype (k : string) : option builtin :=
  if String.eqb k "constructor" then Some (Method "Object")
  else if String.eqb k "__proto__" then Some ObjectPrototype
  else if bool_decide
            (k ∈ [ "__defineGetter__"; "__defineSetter__"; "hasOwnProperty";
                   "__lookupGetter__"; "__lookupSetter__"; "isPrototypeOf";
                   "propertyIsEnumerable"; "toString"; "valueOf";
                   "toLocaleString" ])
       then Some (Method k)
  else None.

(** What [o[k]] evaluates to when [own] is what [o] owns under [k] and the
    prototype of [o] is [Object.prototype]. *)
Inductive looked (V : Type) :=
| Own (v : V)
| Inherited (m : builtin)
| Undefined.
Arguments Own {V} v.
Arguments Inherited {V} m.
Arguments Undefined {V}.

Definition read {V} (own : option V) (k : string) : looked V :=
  match own with
  | Some v => Own v
  | None =>
      match Object_prototype k with
      | Some m => Inherited m
      | None => Undefined
      end
  end.

(** [o[k] = s] for a string [s] on an object [o] that was written [{}] and
    has since only been assigned to in this way: under [__proto__] the
    inherited setter is called, which ignores a value that is neither an
    object nor [null]; any other name becomes, or stays, an own property. *)
Definition assign_str (k s : string) (o : gmap string string)
    : gmap string string :=
  if String.eqb k "__proto__" then o else <[k := s]> o.

(** What JSX shows for [{v}]: the text of a string; a function or an object
    is no text (React ignores a function child and refuses an object). *)
Inductive child :=
| Str (s : string)
| NoText (m : builtin).

(** [String(v)] of a string or [undefined]. *)
Definition String_str (o : option string) : string := default "undefined" o.

(** *** Parsed JSON *)
Inductive json :=
| JNull
| JBool (b : bool)
| JNum (x : float)
| JStr (s : string)
| JArr (items : list json)
| JObj (fields : list (string * json)).

(** A property read yields a JSON value or [undefined] ([None]). *)
Definition truthy (v : option json) : bool :=
  match v with
  | None | Some JNull => false
  | Some (JBool b) => b
  | Some (JNum x) => negb (PrimFloat.eqb x 0%float)
  | Some (JStr s) => negb (String.eqb s "")
  | Some (JArr _) | Some (JObj _) => true
  end.

Definition nullish (v : option json) : bool :=
  match v with
  | None | Some JNull => true
  | _ => false
  end.

(** [a || b], [a ?? b] *)
Definition or_else (a b : option json) : option json :=
  if truthy a then a else b.
Definition coalesce (a b : option json) : option json :=
  if nullish a then b else a.

(** The member of a parsed object: a repeated name keeps its last value. *)
Definition member (k : string) (fields : list (string * json)) : option json :=
  foldl (λ acc kv, if String.eqb kv.1 k then Some kv.2 else acc) None fields.

End Js.

(** ** Data model (the exported types, the same in both builds) *)

Inductive ExerciseType := strength | mobility | core | plyo | cardio.

(** The type declares [id : string]; the mock adapter of [src/App.tsx] tests
    it for absence, and the record comes unvalidated from a JSON response, so
    the field is optional here. *)
Module Exercise.
Record t := mk {
  id : option string;
  name : string;
  equipment : string;
  default_reps : option string;
  type : ExerciseType;
  thumbnail_url : option string;
  yt_query : option string;
  description : option string
}.

(** [{ ...ex, id }] *)
Definition with_id (id : string) (ex : t) : t :=
  mk (Some id) (name ex) (equipment ex) (default_reps ex) (type ex)
     (thumbnail_url ex) (yt_query ex) (description ex).
End Exercise.

(** The exercise catalogue, [Record<string, Exercise>]: a plain object.  The
    mock database assigns records to it under their ids, and an assignment
    under [__proto__] calls the inherited setter, which makes the record the
    prototype of the catalogue instead of a property of it.  [proto] is that
    record, [None] while the prototype is [Object.prototype], as it is for a
    literal and for a parsed response body. *)
Module ExMap.

Record t := mk {
  own : gmap string Exercise.t;
  proto : option Exercise.t
}.

Definition type_name (ty : ExerciseType) : string :=
  match ty with
  | strength => "strength" | mobility => "mobility" | core => "core"
  | plyo => "plyo" | cardio => "cardio"
  end.

(** The own properties of an exercise record, all of them strings. *)
Definition property (k : string) (e : Exercise.t) : option string :=
  if String.eqb k "id" then Exercise.id e
  else if String.eqb k "name" then Some (Exercise.name e)
  else if String.eqb k "equipment" then Some (Exercise.equipment e)
  else if String.eqb k "default_reps" then Exercise.default_reps e
  else if String.eqb k "type" then Some (type_name (Exercise.type e))
  else if String.eqb k "thumbnail_url" then Exercise.thumbnail_url e
  else if String.eqb k "yt_query" then Exercise.yt_query e
  else if String.eqb k "description" then Exercise.description e
  else None.

(** What [exMap[id]] evaluates to: an exercise record, a string property of
    the record that became the prototype, a member inherited from
    [Object.prototype], or [undefined]. *)
Inductive value :=
| Entry (e : Exercise.t)
| Text (s : string)
| Builtin (m : Js.builtin)
| Undefined.

Definition inherited (k : string) : value :=
  match Js.Object_prototype k with
  | Some m => Builtin m
  | None => Undefined
  end.

Definition get (k : string) (m : t) : value :=
  match own m !! k with
  | Some e => Entry e
  | None =>
      match proto m with
      | None => inherited k
      | Some p =>
          if String.eqb k "__proto__" then Entry p
          else match property k p with
               | Some s => Text s
               | None => inherited k
               end
      end
  end.

(** [Boolean(v)] *)
Definition truthy (v : value) : bool :=
  match v with
  | Entry _ | Builtin _ => true
  | Text s => negb (String.eqb s "")
  | Undefined => false
  end.

(** [m[k] = e] for a record [e]. *)
Definition set (k : string) (e : Exercise.t) (m : t) : t :=
  if String.eqb k "__proto__" && bool_decide (own m !! k = None)
  then mk (own m) (Some e)
  else mk (<[k := e]> (own m)) (proto m).

(** The catalogue written as a literal with the given properties. *)
Definition literal (props : gmap string Exercise.t) : t := mk props None.

(** The properties that the view reads from whatever [exMap[id]] gave it.
    Of these names a function has only [name]; a string and
    [Object.prototype] have none. *)
Definition id (v : value) : option string :=
  match v with Entry e => Exercise.id e | _ => None end.

Definition name (v : value) : option string :=
  match v with
  | Entry e => Some (Exercise.name e)
  | Builtin (Js.Method n) => Some n
  | _ => None
  end.

Definition equipment (v : value) : option string :=
  match v with Entry e => Some (Exercise.equipment e) | _ => None end.

Definition default_reps (v : value) : option string :=
  match v with Entry e => Exercise.default_reps e | _ => None end.

Definition yt_query (v : value) : option string :=
  match v with Entry e => Exercise.yt_query e | _ => None end.

End ExMap.

Module PlanRow.
Record t := mk {
  day_id : string;
  day_name : string;
  block_order : Z;
  block_name : string;
  set_number : Z;
  exercise_id : string;
  prescribed_reps : option string;
  tempo : option string;
  notes : option string
}.
End PlanRow.

Module StrengthLog.
Record t := mk {
  date_iso : string;
  day_id : string;
  block_name : string;
  set_number : Z;
  exercise_id : string;
  reps_done : option string;
  load : option string;
  notes : option string
}.
End StrengthLog.

Module CardioPlanRow.
Record t := mk {
  day_id : option string;
  date_iso : option string;
  activity : string;
  target_duration_min : option float;
  target_hr_zone : option string;
  target_rpe : option float;
  notes : option string
}.
End CardioPlanRow.

Module CardioLog.
Record t := mk {
  date_iso : string;
  activity : string;
  duration_min : option float;
  distance_km : option float;
  avg_hr : option float;
  rpe : option float;
  tss : option float;
  notes : option string
}.
End CardioLog.

Module Day.
Record t := mk { id : string; name : string }.
End Day.

(** ** Results of asynchronous operations *)

(** What a rejected promise carries: an [Error] built by the program with its
    message, the parse failure raised by [JSON.parse] / [Response.json], or a
    [TypeError] of the runtime. *)
Inductive error :=
| Error (message : string)
| SyntaxError
| TypeError.

Inductive result (A : Type) :=
| Ok (a : A)
| Err (e : error).
Arguments Ok {A} a.
Arguments Err {A} e.

Definition bind {A B} (r : result A) (k : A → result B) : result B :=
  match r with
  | Ok a => k a
  | Err e => Err e
  end.

Notation "'await' x <- r ;; k" := (bind r (λ x, k))
  (at level 100, x name, r at next level, k at level 200, right associativity).

(** [items.map(f)] where [f] may throw: left to right, the first error wins. *)
Fixpoint mapM {A B} (f : A → result B) (l : list A) : result (list B) :=
  match l with
  | [] => Ok []
  | x :: l' => await y <- f x;; await ys <- mapM f l';; Ok (y :: ys)
  end.

(** ** Day workout view (the same code in both builds) *)

Module DayWorkout.

(** The rendered content of one exercise card.  [exercise] is the element
    of the block's exercise list that the card was made for: a catalogue
    record, or whatever else [exMap[id]] gave that is truthy. *)
Record card := {
  key : string;
  exercise : ExMap.value;
  setNumber : Z;
  equipment_text : string;
  prescribed_text : Js.child;
  ytQuery : string
}.

(** [prescribedReps || exercise.default_reps || "as assigned"] *)
Definition prescription (prescribedReps : Js.looked string)
    (default_reps : option string) : Js.child :=
  match prescribedReps with
  | Js.Inherited m => Js.NoText m
  | Js.Own s => Js.Str (Js.or_lit (Js.or_str (Some s) default_reps) "as assigned")
  | Js.Undefined => Js.Str (Js.or_lit default_reps "as assigned")
  end.

Definition ExerciseCard (key : string) (exercise : ExMap.value) (setNumber : Z)
    (prescribedReps : Js.looked string) : card :=
  {| key := key;
     exercise := exercise;
     setNumber := setNumber;
     equipment_text := Js.or_lit (ExMap.equipment exercise) "bodyweight";
     prescribed_text := prescription prescribedReps (ExMap.default_reps exercise);
     ytQuery :=
       Js.or_lit (ExMap.yt_query exercise)
                 (Js.String_str (ExMap.name exercise) +:+ " exercise") |}.

(** [Block]: the section title and its cards, one pass over the exercises for
    each [set] from 1 while [set <= setCount].  [prescribedByExercise] holds
    the own properties of the object that [blocks] built. *)
Definition Block (name : string) (setCount : Z) (exercises : list ExMap.value)
    (prescribedByExercise : gmap string string) : string * list card :=
  (name,
   set ← seqZ 1 setCount;
   ex ← exercises;
   let id := Js.String_str (ExMap.id ex) in
   [ExerciseCard (id +:+ "_" +:+ pretty set) ex set
      (Js.read (prescribedByExercise !! id) id)]).

(** One entry of [group]; [exercises] is the [Set] in insertion order,
    [prescribed] the own properties of the entry's [prescribed] object. *)
Record group := {
  order : Z;
  sets : Z;
  exercises : list string;
  prescribed : gmap string string
}.

Definition set_add (x : string) (s : list string) : list string :=
  if bool_decide (x ∈ s) then s else s ++ [x].

(** The three updates that a row makes to the entry of its block. *)
Definition with_row (v : group) (row : PlanRow.t) : group :=
  {| order := order v;
     sets := Z.max (sets v) (PlanRow.set_number row);
     exercises := set_add (PlanRow.exercise_id row) (exercises v);
     prescribed :=
       if Js.truthy_str (PlanRow.prescribed_reps row)
       then Js.assign_str (PlanRow.exercise_id row)
              (default "" (PlanRow.prescribed_reps row)) (prescribed v)
       else prescribed v |}.

(** The body of [for (const row of plan)].  [group[key]] is an entry that
    [group] owns, or nothing, in which case the entry is created, or a member
    that [group] inherits: that is truthy, so no entry is created, it has no
    [exercises], and [group[key].exercises.add] throws. *)
Definition add_row (g : Js.obj group) (row : PlanRow.t)
    : result (Js.obj group) :=
  let key := PlanRow.block_name row in
  match Js.read (Js.obj_get key g) key with
  | Js.Own v => Ok (Js.obj_set key (with_row v row) g)
  | Js.Undefined =>
      Ok (Js.obj_set key
            (with_row {| order := PlanRow.block_order row; sets := 0;
                         exercises := []; prescribed := ∅ |} row) g)
  | Js.Inherited _ => Err TypeError
  end.

Definition grouping (plan : list PlanRow.t) : result (Js.obj group) :=
  foldl (λ acc row, await g <- acc;; add_row g row) (Ok []) plan.

Record block := {
  name : string;
  setCount : Z;
  block_exercises : list ExMap.value;
  block_prescribed : gmap string string
}.

(** The memoised [blocks] of [DayWorkoutView]; it throws when the loop over
    the plan does. *)
Definition blocks (plan : list PlanRow.t) (exMap : ExMap.t)
    : result (list block) :=
  await group <- grouping plan;;
  Ok ((λ '(name, v),
         {| name := name; setCount := sets v;
            block_exercises :=
              filter (λ x, ExMap.truthy x = true)
                     ((λ id, ExMap.get id exMap) <$> exercises v);
            block_prescribed := prescribed v |})
      <$> Js.sort (λ a b, order a.2 - order b.2) (Js.entries group)).

(** What the view renders for a loaded plan. *)
Definition render (plan : list PlanRow.t) (exMap : ExMap.t)
    : result (list (string * list card)) :=
  await bs <- blocks plan exMap;;
  Ok ((λ b, Block (name b) (setCount b) (block_exercises b) (block_prescribed b))
      <$> bs).

(** The three values an exercise card hands to [onSave]. *)
Record entry := {
  reps_done : option string;
  load : option string;
  notes : option string
}.

Section OnSave.

(** The injected adapter: its state and its [saveStrengthLog]; [today] is
    [new Date().toISOString().slice(0, 10)]. *)
Context {St : Type}.
Variable saveStrengthLog : StrengthLog.t → St → result bool * St.
Variable today : string.

(** [onSave] of [DayWorkoutView] on the loaded [plan]: the new adapter state
    and the status line once the save has settled.  (The second build also
    clears the status line 1.5 s later.) *)
Definition onSave (plan : list PlanRow.t) (status : string) (st : St)
    (exercise_id : string) (set_number : Z) (data : entry) : St * string :=
  match find (λ p, String.eqb (PlanRow.exercise_id p) exercise_id) plan with
  | None => (st, status)
  | Some dayRow =>
      let log :=
        {| StrengthLog.date_iso := today;
           StrengthLog.day_id := PlanRow.day_id dayRow;
           StrengthLog.block_name := PlanRow.block_name dayRow;
           StrengthLog.set_number := set_number;
           StrengthLog.exercise_id := exercise_id;
           StrengthLog.reps_done := reps_done data;
           StrengthLog.load := load data;
           StrengthLog.notes := notes data |} in
      match saveStrengthLog log st with
      | (Ok _, st') => (st', "Saved")
      | (Err _, st') => (st', status)
      end
  end.

End OnSave.

End DayWorkout.

(** ** The HTTP bridge as the adapters see it *)

Module Http.

Inductive payload :=
| StrengthLogPayload (log : StrengthLog.t)
| CardioLogPayload (log : CardioLog.t)
| ExercisePayload (ex : Exercise.t)
| PlanRowPayload (row : PlanRow.t).

(** A GET with its query parameters, or a POST whose JSON body is
    [{ action, sheetId, payload }]. *)
Inductive request :=
| GET (url : string) (searchParams : Js.obj string) (no_store : bool)
| POST (url : string) (action : string) (sheetId : string) (body : payload).

(** [r.ok] and the raw body of a response. *)
Record response := { ok : bool; text : string }.

End Http.

(** The environment of the adapters: the network ([fetch] rejects with an
    error or resolves to a response; every adapter operation makes one
    exchange), the runtime's JSON parser and its [String] conversion, and the
    browser's local storage. *)
Class Runtime := {
  fetch : Http.request → result Http.response;
  JSON_parse : string → option Js.json;
  String_of : option Js.json → string;
  localStorage_getItem : string → option string
}.

(** [j.k]: reading a property of [null] throws, a primitive or an array has
    none of the property names the adapters read. *)
Definition prop (k : string) (j : Js.json) : result (option Js.json) :=
  match j with
  | Js.JNull => Err TypeError
  | Js.JObj fields => Ok (Js.member k fields)
  | _ => Ok None
  end.

Definition SHEET_ID_KEY : string := "wt_sheet_id".

(** ** The in-memory database of the mock adapter (the same in both builds) *)

Module MockDb.

Record t := mk {
  exercises : ExMap.t;
  plan : list PlanRow.t;
  days : list Day.t;
  strengthLogs : list StrengthLog.t;
  cardioPlan : list CardioPlanRow.t;
  cardioLogs : list CardioLog.t
}.

Definition ex_glute_bridge : Exercise.t :=
  {| Exercise.id := Some "ex_glute_bridge";
     Exercise.name := "Weighted Glute Bridge";
     Exercise.equipment := "mat; dumbbells";
     Exercise.default_reps := Some "8 to 10";
     Exercise.type := strength;
     Exercise.thumbnail_url := Some "https://images.unsplash.com/photo-1605296867304-46d5465a13f1?q=80&w=600&auto=format&fit=crop";
     Exercise.yt_query := Some "weighted glute bridge form";
     Exercise.description :=
       Some "Supine, knees bent, drive through heels, squeeze glutes at top" |}.

Definition ex_banded_deadbug : Exercise.t :=
  {| Exercise.id := Some "ex_banded_deadbug";
     Exercise.name := "Banded Dead Bug (overhead weight)";
     Exercise.equipment := "mat; mini-band; dumbbell";
     Exercise.default_reps := Some "6 each side";
     Exercise.type := core;
     Exercise.thumbnail_url := Some "https://images.unsplash.com/photo-1554298062-9e6f67f99674?q=80&w=600&auto=format&fit=crop";
     Exercise.yt_query := Some "banded dead bug exercise";
     Exercise.description :=
       Some "Brace, press band apart slightly, lower opposite arm and leg" |}.

Definition seed_row (order : Z) (block ex reps : string) (set : Z) : PlanRow.t :=
  {| PlanRow.day_id := "Day 1"; PlanRow.day_name := "Glutes + Core";
     PlanRow.block_order := order; PlanRow.block_name := block;
     PlanRow.set_number := set; PlanRow.exercise_id := ex;
     PlanRow.prescribed_reps := Some reps;
     PlanRow.tempo := None; PlanRow.notes := None |}.

Definition MOCK_DB : t :=
  {| exercises :=
       ExMap.literal
         (<["ex_banded_deadbug" := ex_banded_deadbug]>
            (<["ex_glute_bridge" := ex_glute_bridge]> ∅));
     plan :=
       (seed_row 1 "Glute Strength Block" "ex_glute_bridge" "8 to 10"
          <$> seqZ 1 3)
       ++ (seed_row 2 "Core Block" "ex_banded_deadbug" "6 each side"
          <$> seqZ 1 3);
     days :=
       [ Day.mk "Day 1" "Glutes + Core"; Day.mk "Day 2" "Upper Push";
         Day.mk "Day 3" "Upper Pull"; Day.mk "Day 4" "Lower Body" ];
     strengthLogs := [];
     cardioPlan :=
       [ {| CardioPlanRow.day_id := Some "Day 2";
            CardioPlanRow.date_iso := None;
            CardioPlanRow.activity := "Zone 2 Ride";
            CardioPlanRow.target_duration_min := Some 60%float;
            CardioPlanRow.target_hr_zone := Some "Z2";
            CardioPlanRow.target_rpe := None;
            CardioPlanRow.notes := Some "Keep cadence smooth" |} ];
     cardioLogs := [] |}.

(** The three appending writes, which both builds share. *)
Definition saveStrengthLog (log : StrengthLog.t) (db : t) : result bool * t :=
  (Ok true,
   mk (exercises db) (plan db) (days db) (strengthLogs db ++ [log])
      (cardioPlan db) (cardioLogs db)).

Definition saveCardioLog (log : CardioLog.t) (db : t) : result bool * t :=
  (Ok true,
   mk (exercises db) (plan db) (days db) (strengthLogs db)
      (cardioPlan db) (cardioLogs db ++ [log])).

Definition addPlanRow (row : PlanRow.t) (db : t) : result bool * t :=
  (Ok true,
   mk (exercises db) (plan db ++ [row]) (days db) (strengthLogs db)
      (cardioPlan db) (cardioLogs db)).

Definition listDays (db : t) : list Day.t := days db.

Definition listCardio (db : t) : list CardioPlanRow.t * list CardioLog.t :=
  (cardioPlan db, cardioLogs db).

(** [MOCK_DB.exercises[k] = ex] *)
Definition with_exercise (k : string) (ex : Exercise.t) (db : t) : t :=
  mk (ExMap.set k ex (exercises db)) (plan db) (days db) (strengthLogs db)
     (cardioPlan db) (cardioLogs db).

End MockDb.

(** ** src/App.tsx *)

Module AppTsx.

Definition APPS_SCRIPT_BASE_URL : string :=
  "https://script.google.com/macros/s/AKfycbw_cV-YyxjxWuWtNYC9sd4MKrVz2GyOc1vIa-73QeCVA4HwPmKaLyd_m9f4fTU9dY7_Og/execERE".

Module MockAdapter.

Definition getPlanForDay (day_id : string) (db : MockDb.t)
    : list PlanRow.t * ExMap.t :=
  (Js.sort
     (λ a b,
        if PlanRow.block_order a - PlanRow.block_order b =? 0
        then PlanRow.set_number a - PlanRow.set_number b
        else PlanRow.block_order a - PlanRow.block_order b)
     (filter (λ p, PlanRow.day_id p = day_id) (MockDb.plan db)),
   MockDb.exercises db).

(** [rnd] is [Math.random().toString(36)], the base-36 rendering of the
    number drawn, which the runtime produces only when [ex.id] is falsy. *)
Definition addExercise (rnd : string) (ex : Exercise.t) (db : MockDb.t)
    : (bool * string) * MockDb.t :=
  let id := Js.or_lit (Exercise.id ex) ("ex_" +:+ Js.slice 2 10 rnd) in
  ((true, id), MockDb.with_exercise id (Exercise.with_id id ex) db).

End MockAdapter.

Definition sheetId `{Runtime} : string :=
  Js.or_lit (localStorage_getItem SHEET_ID_KEY) "".

Definition getJSON `{Runtime} (action : string) (params : Js.obj string)
    : result Js.json :=
  let q := Js.obj_set "action" action [] in
  let q := if bool_decide (is_Some (Js.obj_get "sheetId" q)) then q
           else Js.obj_set "sheetId" sheetId q in
  let q := foldl (λ q kv, Js.obj_set kv.1 kv.2 q) q (Js.entries params) in
  await r <- fetch (Http.GET APPS_SCRIPT_BASE_URL q false);;
  if negb (Http.ok r) then Err (Error (action +:+ " failed"))
  else match JSON_parse (Http.text r) with
       | Some j => Ok j
       | None => Err SyntaxError
       end.

Definition postJSON `{Runtime} (action : string) (payload : Http.payload)
    : result Js.json :=
  await r <- fetch (Http.POST APPS_SCRIPT_BASE_URL action sheetId payload);;
  if negb (Http.ok r) then Err (Error (action +:+ " failed"))
  else match JSON_parse (Http.text r) with
       | Some j => Ok j
       | None => Err SyntaxError
       end.

Module GoogleSheetsAdapter.

Definition listDays `{Runtime} : result (list (string * option Js.json)) :=
  await j <- getJSON "listDays" [];;
  await days <- prop "days" j;;
  match days with
  | Some (Js.JArr items) =>
      mapM (λ d, await day_id <- prop "day_id" d;;
                 await day_name <- prop "day_name" d;;
                 Ok (String_of day_id, day_name)) items
  | _ => Err TypeError
  end.

Definition getPlanForDay `{Runtime} (dayId : string)
    : result (option Js.json * option Js.json) :=
  await j <- getJSON "getPlanForDay" [("day", dayId)];;
  await plan <- prop "plan" j;;
  await exercises <- prop "exercises" j;;
  Ok (plan, exercises).

Definition saveStrengthLog `{Runtime} (log : StrengthLog.t) : result bool :=
  await _ <- postJSON "saveStrengthLog" (Http.StrengthLogPayload log);;
  Ok true.

Definition listCardio `{Runtime} : result (option Js.json * option Js.json) :=
  await j <- getJSON "listCardio" [];;
  await cardio <- prop "cardio" j;;
  await logs <- prop "logs" j;;
  Ok (Js.coalesce cardio (Some (Js.JArr [])),
      Js.coalesce logs (Some (Js.JArr []))).

Definition saveCardioLog `{Runtime} (log : CardioLog.t) : result bool :=
  await _ <- postJSON "saveCardioLog" (Http.CardioLogPayload log);;
  Ok true.

Definition addExercise `{Runtime} (ex : Exercise.t) : result (bool * option string) :=
  await _ <- postJSON "addExercise" (Http.ExercisePayload ex);;
  Ok (true, Exercise.id ex).

Definition addPlanRow `{Runtime} (row : PlanRow.t) : result bool :=
  await _ <- postJSON "addPlanRow" (Http.PlanRowPayload row);;
  Ok true.

End GoogleSheetsAdapter.

End AppTsx.

(** ** The second build of the application *)

Module Part000.

Definition API_BASE_URL : string :=
  "https://script.google.com/macros/s/AKfycbyZhTwMUAD7MoebK9rPBdpptVBKRRg4upx54Wr41toCZ4UaTCIw2m9mJi5F3LJ2tIOL5A/exec".

Definition getJSON `{Runtime} (action : string) (params : Js.obj string)
    : result Js.json :=
  let q := Js.obj_set "action" action [] in
  let sid := Js.or_lit (localStorage_getItem SHEET_ID_KEY) "" in
  let q := if negb (String.eqb sid "") then Js.obj_set "sheetId" sid q else q in
  let q := foldl (λ q kv, Js.obj_set kv.1 kv.2 q) q (Js.entries params) in
  await r <- fetch (Http.GET API_BASE_URL q true);;
  let text := Http.text r in
  match JSON_parse text with
  | Some j => Ok j
  | None =>
      Err (Error ("API returned non-JSON. First 120: " +:+ Js.slice 0 120 text))
  end.

Definition postJSON `{Runtime} (action : string) (payload : Http.payload)
    : result Js.json :=
  let sid := Js.or_lit (localStorage_getItem SHEET_ID_KEY) "" in
  await r <- fetch (Http.POST API_BASE_URL action sid payload);;
  match JSON_parse (Http.text r) with
  | Some j => Ok j
  | None => Err SyntaxError
  end.

Module MockAdapter.

Definition getPlanForDay (day_id : string) (db : MockDb.t)
    : list PlanRow.t * ExMap.t :=
  (filter (λ p, PlanRow.day_id p = day_id) (MockDb.plan db),
   MockDb.exercises db).

Definition addExercise (ex : Exercise.t) (db : MockDb.t)
    : (bool * option string) * MockDb.t :=
  ((true, Exercise.id ex),
   MockDb.with_exercise (Js.prop_key (Exercise.id ex)) ex db).

End MockAdapter.

Module GoogleSheetsAdapter.

Definition listDays `{Runtime} : result (list (string * option Js.json)) :=
  await j <- getJSON "listDays" [];;
  await days <- prop "days" j;;
  match days with
  | Some (Js.JArr items) =>
      mapM (λ d, await day_id <- prop "day_id" d;;
                 await day_name <- prop "day_name" d;;
                 Ok (String_of day_id, day_name)) items
  | _ => Err TypeError
  end.

Definition getPlanForDay `{Runtime} (day_id : string)
    : result (option Js.json * option Js.json) :=
  await j <- getJSON "getPlanForDay" [("day", day_id)];;
  await plan <- prop "plan" j;;
  await exercises <- prop "exercises" j;;
  Ok (Js.or_else plan (Some (Js.JArr [])),
      Js.or_else exercises (Some (Js.JObj []))).

Definition listCardio `{Runtime} (dateRange : option (string * string))
    : result (option Js.json * option Js.json) :=
  let params :=
    match dateRange with
    | Some (start_iso, end_iso) =>
        Js.obj_set "end_iso" end_iso (Js.obj_set "start_iso" start_iso [])
    | None => []
    end in
  await j <- getJSON "listCardio" params;;
  await plan <- prop "plan" j;;
  await plan_or_cardio <-
    (if Js.truthy plan then Ok plan else prop "cardio" j);;
  await logs <- prop "logs" j;;
  Ok (Js.or_else plan_or_cardio (Some (Js.JArr [])),
      Js.or_else logs (Some (Js.JArr []))).

(** The four writes hand the parsed response body back unchanged. *)
Definition saveStrengthLog `{Runtime} (log : StrengthLog.t) : result Js.json :=
  postJSON "saveStrengthLog" (Http.StrengthLogPayload log).

Definition saveCardioLog `{Runtime} (log : CardioLog.t) : result Js.json :=
  postJSON "saveCardioLog" (Http.CardioLogPayload log).

Definition addExercise `{Runtime} (ex : Exercise.t) : result Js.json :=
  postJSON "addExercise" (Http.ExercisePayload ex).

Definition addPlanRow `{Runtime} (row : PlanRow.t) : result Js.json :=
  postJSON "addPlanRow" (Http.PlanRowPayload row).

End GoogleSheetsAdapter.


End Part000.

(** ** tools/gen-icons.mjs *)

Module GenIcons.

Definition BG : string := "#111827".
Definition PADDING : float := 0.12%float.

Inductive background := Transparent | Solid (color : string).

#[global] Instance background_eq_dec : EqDecision background.
Proof. solve_decision. Defined.

Record job := { file : string; size : Z; maskable : bool }.

Definition pngJobs : list job :=
  [ {| file := "favicon-16x16.png"; size := 16; maskable := false |};
    {| file := "favicon-32x32.png"; size := 32; maskable := false |};
    {| file := "apple-touch-icon.png"; size := 180; maskable := false |};
    {| file := "android-chrome-192x192.png"; size := 192; maskable := false |};
    {| file := "android-chrome-512x512.png"; size := 512; maskable := false |};
    {| file := "maskable-icon-512.png"; size := 512; maskable := true |} ].

(** What [renderPadded] asks of the image library: a [width] x [height]
    canvas filled with [canvas_bg], onto which the artwork, resized to fit
    an [inner] x [inner] box, is composited at offset ([left], [top]). *)
Record composite := {
  width : Z; height : Z; canvas_bg : background;
  inner : Z; left : Z; top : Z
}.

#[global] Instance composite_eq_dec : EqDecision composite.
Proof. solve_decision. Defined.

(** [Math.round(size * (1 - 2 * PADDING))] *)
Definition inner_box (size : Z) : option Z :=
  Js.Math_round (PrimFloat.mul (Js.Z2F size)
    (PrimFloat.sub 1%float (PrimFloat.mul 2%float PADDING))).

(** [Math.round((size - inner) / 2)] *)
Definition offset (size inner : Z) : option Z :=
  Js.Math_round (PrimFloat.div
    (PrimFloat.sub (Js.Z2F size) (Js.Z2F inner)) 2%float).

Definition renderPadded (size : Z) (maskable : bool) : option composite :=
  i ← inner_box size;
  o ← offset size i;
  Some {| width := size; height := size;
          canvas_bg := if maskable then Transparent else Solid BG;
          inner := i; left := o; top := o |}.

(** The same quantities in exact integer arithmetic:
    round(size * 76 / 100) and round((size - inner) / 2), ties upwards. *)
Definition inner_exact (size : Z) : Z := (76 * size + 50) / 100.
Definition offset_exact (size inner : Z) : Z := (size - inner + 1) / 2.

Definition agrees (size : Z) : bool :=
  bool_decide (renderPadded size false =
    Some {| width := size; height := size; canvas_bg := Solid BG;
            inner := inner_exact size;
            left := offset_exact size (inner_exact size);
            top := offset_exact size (inner_exact size) |})
  && bool_decide (renderPadded size true =
    Some {| width := size; height := size; canvas_bg := Transparent;
            inner := inner_exact size;
            left := offset_exact size (inner_exact size);
            top := offset_exact size (inner_exact size) |}).

End GenIcons.

(** ** The grouping read one block at a time *)

Module PerBlock.

Import DayWorkout.

(** The rows of the plan that belong to block [k], in plan order. *)
Definition block_rows (k : string) (plan : list PlanRow.t) : list PlanRow.t :=
  filter (λ r, PlanRow.block_name r = k) plan.

Definition max_set (rows : list PlanRow.t) : Z :=
  foldl (λ m r, Z.max m (PlanRow.set_number r)) 0 rows.

Definition seen_exercises (rows : list PlanRow.t) : list string :=
  foldl (λ s r, set_add (PlanRow.exercise_id r) s) [] rows.

Definition overrides (rows : list PlanRow.t) : gmap string string :=
  foldl (λ m r,
           if Js.truthy_str (PlanRow.prescribed_reps r)
           then Js.assign_str (PlanRow.exercise_id r)
                  (default "" (PlanRow.prescribed_reps r)) m
           else m) ∅ rows.

(** What [group[k]] holds once the rows of block [k] have been consumed. *)
Definition fold_block (rows : list PlanRow.t) : option group :=
  match rows with
  | [] => None
  | first :: _ =>
      Some {| order := PlanRow.block_order first;
              sets := max_set rows;
              exercises := seen_exercises rows;
              prescribed := overrides rows |}
  end.

(** The block emitted for one entry of [group]. *)
Definition to_block (exMap : ExMap.t) (kv : string * group) : block :=
  {| name := kv.1; setCount := sets kv.2;
     block_exercises :=
       filter (λ x, ExMap.truthy x = true)
              ((λ id, ExMap.get id exMap) <$> exercises kv.2);
     block_prescribed := prescribed kv.2 |}.

End PerBlock.

(** Two rows of one block with different exercises, in both orders. *)
Definition row_bridge : PlanRow.t :=
  MockDb.seed_row 1 "Glute Strength Block" "ex_glute_bridge" "8 to 10" 1.
Definition row_deadbug : PlanRow.t :=
  MockDb.seed_row 1 "Glute Strength Block" "ex_banded_deadbug" "6 each side" 2.

(** ** Sample data for the examples *)

(** The same exercise in two blocks of the seeded day: a set saved from the
    second block is logged under the first block's name. *)
Definition two_block_plan : list PlanRow.t :=
  [ MockDb.seed_row 1 "Glute Strength Block" "ex_glute_bridge" "8 to 10" 1;
    MockDb.seed_row 2 "Core Block" "ex_glute_bridge" "12" 1 ].

(** A bridge that answers every request with the response [r]. *)
Definition replies `{Runtime} (r : Http.response) : Prop :=
  ∀ req, fetch req = Ok r.


(** No row of the plan names its block after a member that every object
    inherits. *)
Definition plain_names (plan : list PlanRow.t) : Prop :=
  Forall (λ r, Js.Object_prototype (PlanRow.block_name r) = None) plan.

(** The catalogue has [Object.prototype] as its prototype and the plan names
    no exercise after a member of it that the catalogue does not own, so
    that [exMap[id]] is a record of the catalogue or [undefined]. *)
Definition plain_ids (plan : list PlanRow.t) (exMap : ExMap.t) : Prop :=
  ExMap.proto exMap = None
  ∧ Forall (λ r, ExMap.own exMap !! PlanRow.exercise_id r = None ->
                 Js.Object_prototype (PlanRow.exercise_id r) = None) plan.

Definition dq : string := String (ascii_of_nat 34) EmptyString.
Definition quoted (s : string) : string := dq +:+ s +:+ dq.

(** Response bodies of the examples, each with the value it parses to. *)
Definition body_ok_false : string := "{" +:+ quoted "ok" +:+ ":false}".
Definition body_ok_only : string := "{" +:+ quoted "ok" +:+ ":true}".
Definition body_ok_echo : string :=
  "{" +:+ quoted "ok" +:+ ":true," +:+ quoted "exercise_id" +:+ ":"
  +:+ quoted "ex_9" +:+ "}".
Definition body_plan_key : string :=
  "{" +:+ quoted "plan" +:+ ":[{" +:+ quoted "activity" +:+ ":"
  +:+ quoted "Ride" +:+ "}]}".
Definition body_cardio_key : string :=
  "{" +:+ quoted "cardio" +:+ ":[{" +:+ quoted "activity" +:+ ":"
  +:+ quoted "Ride" +:+ "}]}".
Definition body_html : string := "<!DOCTYPE html><html><head><title>Sign in".

Definition ride_rows : Js.json :=
  Js.JArr [Js.JObj [("activity", Js.JStr "Ride")]].

Definition sample_bodies : list (string * Js.json) :=
  [ (body_ok_false, Js.JObj [("ok", Js.JBool false)]);
    (body_ok_only, Js.JObj [("ok", Js.JBool true)]);
    (body_ok_echo,
     Js.JObj [("ok", Js.JBool true); ("exercise_id", Js.JStr "ex_9")]);
    (body_plan_key, Js.JObj [("plan", ride_rows)]);
    (body_cardio_key, Js.JObj [("cardio", ride_rows)]) ].

(** A runtime for the examples: the bridge answers [r] to every request, the
    parser knows the bodies above and rejects [body_html], no sheet id is
    stored.  No example converts anything but a string with [String]. *)
Definition sample_runtime (r : Http.response) : Runtime :=
  {| fetch := λ _, Ok r;
     JSON_parse := λ text, Js.obj_get text sample_bodies;
     String_of := λ v, match v with Some (Js.JStr s) => s | _ => "" end;
     localStorage_getItem := λ _, None |}.

Definition bridge_reports_failure : Runtime :=
  sample_runtime {| Http.ok := true; Http.text := body_ok_false |}.

Definition sample_card : DayWorkout.card :=
  DayWorkout.ExerciseCard "ex_glute_bridge_1"
    (ExMap.Entry MockDb.ex_glute_bridge) 1 Js.Undefined.

Definition sample_exercise (id : option string) : Exercise.t :=
  {| Exercise.id := id; Exercise.name := "Hip Thrust";
     Exercise.equipment := "bench; barbell";
     Exercise.default_reps := Some "8 to 10"; Exercise.type := strength;
     Exercise.thumbnail_url := None; Exercise.yt_query := None;
     Exercise.description := None |}.

(** The catalogue holding one exercise with id "toString", and a plan row
    for it that prescribes nothing. *)
Definition catalogue_toString : ExMap.t :=
  ExMap.literal {["toString" := sample_exercise (Some "toString")]}.

(** A row whose block is named after an inherited member. *)
Definition row_constructor : PlanRow.t :=
  PlanRow.mk "Day 1" "Glutes + Core" 1 "constructor" 2 "ex_glute_bridge"
    None None None.

Definition row_toString : PlanRow.t :=
  PlanRow.mk "Day 1" "Glutes + Core" 1 "Core Block" 1 "toString"
    None None None.

Definition sample_log : StrengthLog.t :=
  {| StrengthLog.date_iso := "2025-08-20"; StrengthLog.day_id := "Day 1";
     StrengthLog.block_name := "Core Block"; StrengthLog.set_number := 1;
     StrengthLog.exercise_id := "ex_banded_deadbug";
     StrengthLog.reps_done := Some "6"; StrengthLog.load := Some "red band";
     StrengthLog.notes := None |}.

Definition sample_cardio_log : CardioLog.t :=
  {| CardioLog.date_iso := "2025-08-20"; CardioLog.activity := "Ride";
     CardioLog.duration_min := Some 45%float; CardioLog.distance_km := None;
     CardioLog.avg_hr := None; CardioLog.rpe := None; CardioLog.tss := None;
     CardioLog.notes := None |}.

(** ** Orders used by the two sorts of the program *)

(** The comparator of [blocks] and that of the mock's [getPlanForDay] in
    src/App.tsx, as the relations "may come before". *)
Definition block_entry_le (a b : string * DayWorkout.group) : Prop :=
  DayWorkout.order a.2 <= DayWorkout.order b.2.

Definition plan_row_le (a b : PlanRow.t) : Prop :=
  PlanRow.block_order a < PlanRow.block_order b
  \/ (PlanRow.block_order a = PlanRow.block_order b
      /\ PlanRow.set_number a <= PlanRow.set_number b).

(** The [block_order] that [blocks] keeps for block [k]: that of its first
    row in the plan. *)
Definition first_order (k : string) (plan : list PlanRow.t) : option Z :=
  PlanRow.block_order <$> head (PerBlock.block_rows k plan).

(** The value of [d.k] for a value [d] other than [null]. *)
Definition json_field (k : string) (d : Js.json) : option Js.json :=
  match d with
  | Js.JObj fields => Js.member k fields
  | _ => None
  end.

(** ** Cardio view (the same code in both builds) *)

Module CardioView.

(** The plan rows, the logs and the status line of the view; [P] and [L] are
    the plan and the log list as the adapter hands them back. *)
Record view (P L : Type) := mk { rows : P; logs : L; status : string }.
Arguments mk {P L} rows logs status.
Arguments rows {P L} v.
Arguments logs {P L} v.
Arguments status {P L} v.

Section Save.

(** The injected adapter: its state, what [saveCardioLog] resolves to, the
    test [if (res.ok)] on it, and [listCardio]. *)
Context {St Res P L : Type}.
Variable saveCardioLog : CardioLog.t → St → result Res * St.
Variable res_ok : Res → result bool.
Variable listCardio : St → result (P * L).

(** [save]: the view and the adapter state once it has settled.  (The second
    build also clears the status line 1.5 s later.) *)
Definition save (newLog : CardioLog.t) (v : view P L) (st : St)
    : view P L * St :=
  match saveCardioLog newLog st with
  | (Err _, st') => (v, st')
  | (Ok res, st') =>
      match res_ok res with
      | Ok true =>
          match listCardio st' with
          | Ok (plan, logs) => (mk plan logs "Saved", st')
          | Err _ => (mk (rows v) (logs v) "Saved", st')
          end
      | Ok false | Err _ => (v, st')
      end
  end.

End Save.

(** [logs.slice().reverse()], the order in which the logs are listed. *)
Definition recent {A} (logs : list A) : list A := reverse logs.

(** [save] over the mock adapter. *)
Definition save_mock (newLog : CardioLog.t)
    (v : view (list CardioPlanRow.t) (list CardioLog.t)) (db : MockDb.t) :=
  save MockDb.saveCardioLog (λ ok : bool, Ok ok)
    (λ db, Ok (MockDb.listCardio db)) newLog v db.



End CardioView.

(** ** Adding an alternative exercise (the same code in both builds) *)

Module AiFlow.

(** The state of [DayWorkoutView] that the flow touches. *)
Record view := mk {
  plan : list PlanRow.t;
  exMap : ExMap.t;
  aiQuery : string;
  aiBusy : bool
}.

Section Flow.

(** The injected adapter with the result types its interface declares, the
    runtime's [String.prototype.trim], and the lookup endpoint:
    [ai_exercise q] is the parsed response of POST /api/ai-exercise. *)
Context {St : Type}.
Variable trim : string → string.
Variable ai_exercise : string → result Exercise.t.
Variable addExercise : Exercise.t → St → result (bool * string) * St.
Variable addPlanRow : PlanRow.t → St → result bool * St.
Variable getPlanForDay : string → St → result (list PlanRow.t * ExMap.t).

Definition busy_off (v : view) : view :=
  mk (plan v) (exMap v) (aiQuery v) false.

(** The plan row of step 2. *)
Definition adhoc_row (days : list Day.t) (selectedDay : string)
    (exercise_id : string) (ex : Exercise.t) : PlanRow.t :=
  {| PlanRow.day_id := selectedDay;
     PlanRow.day_name :=
       Js.or_lit (Day.name <$> find (λ d, String.eqb (Day.id d) selectedDay) days)
                 selectedDay;
     PlanRow.block_order := 99;
     PlanRow.block_name := "Ad hoc alternatives";
     PlanRow.set_number := 1;
     PlanRow.exercise_id := exercise_id;
     PlanRow.prescribed_reps := Exercise.default_reps ex;
     PlanRow.tempo := None;
     PlanRow.notes := None |}.

(** [addAlternativeExercise]: the view and the adapter state once the flow
    has settled; the [finally] clause clears the busy flag on every path
    that has set it. *)
Definition addAlternativeExercise (days : list Day.t) (selectedDay : string)
    (v : view) (st : St) : view * St :=
  if String.eqb selectedDay "" || String.eqb (trim (aiQuery v)) ""
  then (v, st)
  else
    match ai_exercise (aiQuery v) with
    | Err _ => (busy_off v, st)
    | Ok ex =>
        match addExercise ex st with
        | (Err _, st1) => (busy_off v, st1)
        | (Ok addRes, st1) =>
            match addPlanRow (adhoc_row days selectedDay addRes.2 ex) st1 with
            | (Err _, st2) => (busy_off v, st2)
            | (Ok _, st2) =>
                match getPlanForDay selectedDay st2 with
                | Err _ => (busy_off v, st2)
                | Ok updated => (mk updated.1 updated.2 "" false, st2)
                end
            end
        end
    end.

End Flow.

(** The flow over the mock adapter of src/App.tsx; [rnd] as in its
    [addExercise]. *)
Definition with_mock_AppTsx (trim : string → string)
    (ai_exercise : string → result Exercise.t) (rnd : string) :=
  addAlternativeExercise trim ai_exercise
    (λ ex db, let r := AppTsx.MockAdapter.addExercise rnd ex db in (Ok r.1, r.2))
    MockDb.addPlanRow
    (λ day db, Ok (AppTsx.MockAdapter.getPlanForDay day db)).

End AiFlow.

(** ** Provisioning messages of the settings view *)

Module Provision.





Section Handlers.

Context `{Runtime}.







End Handlers.

End Provision.

(** ** The icon bundle of tools/gen-icons.mjs *)

Module IcoBundle.

Definition icoSizes : list Z := [16; 32; 48].

(** One frame of the bundle: the artwork resized to
    [Math.round(s * (1 - 2 * PADDING))] squared, composited on an opaque
    [s] x [s] canvas at [Math.round(s * PADDING)] from the left and the top. *)
Definition frame (s : Z) : option GenIcons.composite :=
  i ← Js.Math_round (PrimFloat.mul (Js.Z2F s)
         (PrimFloat.sub 1%float (PrimFloat.mul 2%float GenIcons.PADDING)));
  o ← Js.Math_round (PrimFloat.mul (Js.Z2F s) GenIcons.PADDING);
  Some {| GenIcons.width := s; GenIcons.height := s;
          GenIcons.canvas_bg := GenIcons.Solid GenIcons.BG;
          GenIcons.inner := i; GenIcons.left := o; GenIcons.top := o |}.

(** The left margin is the right margin or one pixel more. *)
Definition centred (c : GenIcons.composite) : bool :=
  let right := GenIcons.width c - GenIcons.inner c - GenIcons.left c in
  (right <=? GenIcons.left c) && (GenIcons.left c <=? right + 1).

Definition checked (render : Z → option GenIcons.composite)
    (test : GenIcons.composite → bool) (s : Z) : bool :=
  match render s with
  | Some c => test c
  | None => false
  end.

(** The artwork lies within the canvas. *)
Definition fits (c : GenIcons.composite) : bool :=
  (0 <=? GenIcons.left c) && (0 <=? GenIcons.top c)
  && (GenIcons.left c + GenIcons.inner c <=? GenIcons.width c)
  && (GenIcons.top c + GenIcons.inner c <=? GenIcons.height c).

End IcoBundle.

(** ** More sample data *)

(** A runtime whose bridge answers [r] to every request and whose parser
    reads the text of [r] as [body]. *)
Definition bridge_answering (r : Http.response) (body : Js.json) : Runtime :=
  {| fetch := λ _, Ok r;
     JSON_parse := λ text,
       if String.eqb text (Http.text r) then Some body else None;
     String_of := λ v, match v with Some (Js.JStr s) => s | _ => "" end;
     localStorage_getItem := λ _, None |}.


(** A runtime without network. *)
Definition offline : Runtime :=
  {| fetch := λ _, Err TypeError;
     JSON_parse := λ _, None;
     String_of := λ v, match v with Some (Js.JStr s) => s | _ => "" end;
     localStorage_getItem := λ _, None |}.

Definition body_days : string :=
  "{" +:+ quoted "days" +:+ ":[{" +:+ quoted "day_id" +:+ ":"
  +:+ quoted "Day 1" +:+ "," +:+ quoted "day_name" +:+ ":"
  +:+ quoted "Glutes + Core" +:+ "}]}".

Definition days_value : Js.json :=
  Js.JObj [("days", Js.JArr [Js.JObj [("day_id", Js.JStr "Day 1");
                                      ("day_name", Js.JStr "Glutes + Core")]])].


Definition row_plain : PlanRow.t :=
  PlanRow.mk "Day 1" "Glutes + Core" 1 "Glute Strength Block" 1
    "ex_glute_bridge" None None None.


(** * Properties *)

(** ** Grouping of plan rows into blocks *)

Section Objects.

Context {V : Type}.
Implicit Types (o : Js.obj V) (k : string) (v : V).

Lemma obj_get_set k k' v o :
  Js.obj_get k' (Js.obj_set k v o)
  = if decide (k = k') then Some v else Js.obj_get k' o.
Proof.
  induction o as [|[k0 v0] o IH]; simpl.
  - case_decide as Hk; subst; [by rewrite String.eqb_refl|].
    apply String.eqb_neq in Hk. by rewrite Hk.
  - destruct (String.eqb k0 k) eqn:Hk0; simpl.
    + apply String.eqb_eq in Hk0 as ->.
      case_decide as Hk; subst; [by rewrite String.eqb_refl|].
      apply String.eqb_neq in Hk. by rewrite Hk.
    + rewrite IH. destruct (String.eqb k0 k') eqn:Hk'; [|done].
      apply String.eqb_eq in Hk' as ->. apply String.eqb_neq in Hk0.
      by rewrite decide_False by done.
Qed.

Lemma obj_get_Some k v o : Js.obj_get k o = Some v -> (k, v) ∈ o.
Proof.
  induction o as [|[k0 v0] o IH]; simpl; [done|].
  destruct (String.eqb k0 k) eqn:Hk0.
  - apply String.eqb_eq in Hk0 as ->. intros [= ->]. apply list_elem_of_here.
  - intros Hget. apply list_elem_of_further. by apply IH.
Qed.

Lemma obj_get_None k o : Js.obj_get k o = None -> k ∉ o.*1.
Proof.
  induction o as [|[k0 v0] o IH]; simpl; [intros _; apply not_elem_of_nil|].
  destruct (String.eqb k0 k) eqn:Hk0; [done|].
  apply String.eqb_neq in Hk0. intros Hget.
  apply not_elem_of_cons. split; [done|by apply IH].
Qed.

Lemma obj_elem_get k v o : NoDup o.*1 -> (k, v) ∈ o -> Js.obj_get k o = Some v.
Proof.
  induction o as [|[k0 v0] o IH]; simpl; [by intros _ ?%elem_of_nil|].
  intros [Hk0 Hnd]%NoDup_cons [Heq | Hin]%elem_of_cons.
  - inversion Heq; subst. by rewrite String.eqb_refl.
  - destruct (String.eqb k0 k) eqn:Hk; [|by apply IH].
    apply String.eqb_eq in Hk as ->. destruct Hk0.
    apply list_elem_of_fmap. by exists (k, v).
Qed.

Lemma obj_set_keys k v o :
  (Js.obj_set k v o).*1
  = if Js.obj_get k o is Some _ then o.*1 else o.*1 ++ [k].
Proof.
  induction o as [|[k0 v0] o IH]; csimpl; [done|].
  destruct (String.eqb k0 k) eqn:Hk0; csimpl.
  - by apply String.eqb_eq in Hk0 as ->.
  - rewrite IH. by destruct (Js.obj_get k o).
Qed.

Lemma obj_set_NoDup k v o : NoDup o.*1 -> NoDup (Js.obj_set k v o).*1.
Proof.
  intros Hnd. rewrite obj_set_keys.
  destruct (Js.obj_get k o) eqn:Hget; [done|].
  apply NoDup_app. split; [done|]. split; [|apply NoDup_singleton].
  intros k' Hk' ->%list_elem_of_singleton. by apply obj_get_None in Hget.
Qed.

Lemma sort_insert_Permutation {A} (cmp : A → A → Z) (x : A) (l : list A) :
  Js.sort_insert cmp x l ≡ₚ x :: l.
Proof.
  induction l as [|y l IH]; simpl; [done|].
  destruct (cmp x y <=? 0); [done|]. by rewrite IH, Permutation_swap.
Qed.

Lemma sort_Permutation {A} (cmp : A → A → Z) (l : list A) :
  Js.sort cmp l ≡ₚ l.
Proof.
  induction l as [|x l IH]; simpl; [done|].
  unfold Js.sort in *. simpl. by rewrite sort_insert_Permutation, IH.
Qed.

Lemma entries_Permutation o : Js.entries o ≡ₚ o.
Proof.
  unfold Js.entries. rewrite sort_Permutation. apply filter_app_complement.
Qed.

End Objects.

Section Grouping.

Import DayWorkout PerBlock.

Implicit Types (plan rows : list PlanRow.t) (row : PlanRow.t) (k : string).

Lemma grouping_snoc plan row :
  grouping (plan ++ [row]) = (await g <- grouping plan;; add_row g row).
Proof. unfold grouping. by rewrite foldl_snoc. Qed.

Lemma block_rows_snoc k plan row :
  block_rows k (plan ++ [row])
  = block_rows k plan
    ++ (if decide (PlanRow.block_name row = k) then [row] else []).
Proof.
  unfold block_rows. by rewrite filter_app.
Qed.

Lemma fold_block_snoc rows row :
  fold_block (rows ++ [row])
  = Some (with_row
            (default {| order := PlanRow.block_order row; sets := 0;
                        exercises := []; prescribed := ∅ |}
                     (fold_block rows)) row).
Proof.
  unfold fold_block, max_set, seen_exercises, overrides, with_row.
  rewrite !foldl_snoc. by destruct rows.
Qed.

Lemma plain_names_snoc plan row :
  plain_names (plan ++ [row])
  <-> plain_names plan /\ Js.Object_prototype (PlanRow.block_name row) = None.
Proof.
  unfold plain_names. by rewrite Forall_app, Forall_singleton.
Qed.

(** The pass over the plan completes exactly when no block name is an
    inherited member; it then has built, for every block name, what a pass
    over that block's rows alone would build. *)
Lemma grouping_Ok plan (g : Js.obj group) :
  grouping plan = Ok g ->
  plain_names plan
  /\ (forall k, Js.obj_get k g = fold_block (block_rows k plan))
  /\ NoDup g.*1.
Proof.
  revert g. induction plan as [|row plan IH] using rev_ind; intros g.
  - intros [= <-]. split; [apply Forall_nil_2|]. split; [done|apply NoDup_nil_2].
  - rewrite grouping_snoc.
    destruct (grouping plan) as [g0|e] eqn:Hg0; [|done].
    destruct (IH g0 eq_refl) as (Hplain & Hget & Hnd). cbn [bind].
    unfold add_row. cbn zeta. unfold Js.read.
    rewrite (Hget (PlanRow.block_name row)).
    assert (Hstep : forall v,
      default {| order := PlanRow.block_order row; sets := 0;
                 exercises := []; prescribed := ∅ |}
              (fold_block (block_rows (PlanRow.block_name row) plan)) = v ->
      (is_Some (fold_block (block_rows (PlanRow.block_name row) plan))
       \/ Js.Object_prototype (PlanRow.block_name row) = None) ->
      Ok (Js.obj_set (PlanRow.block_name row) (with_row v row) g0) = Ok g ->
      plain_names (plan ++ [row])
      /\ (forall k, Js.obj_get k g = fold_block (block_rows k (plan ++ [row])))
      /\ NoDup g.*1).
    { intros v Hv Hname [= <-]. split; [|split].
      - apply plain_names_snoc. split; [done|].
        destruct Hname as [[v0 Hv0] | Hname]; [|done].
        destruct (block_rows (PlanRow.block_name row) plan) as [|r0 rows0] eqn:Hrows;
          [done|].
        assert (Hr0 : r0 ∈ block_rows (PlanRow.block_name row) plan)
          by (rewrite Hrows; apply list_elem_of_here).
        apply list_elem_of_filter in Hr0 as [Hname0 Hr0].
        rewrite <- Hname0. unfold plain_names in Hplain.
        rewrite Forall_forall in Hplain. by apply Hplain.
      - intros k. rewrite obj_get_set, block_rows_snoc. case_decide as Hk.
        + subst k. by rewrite fold_block_snoc, Hv.
        + by rewrite app_nil_r.
      - by apply obj_set_NoDup. }
    destruct (fold_block (block_rows (PlanRow.block_name row) plan)) as [v|] eqn:Hv.
    + apply (Hstep v); [done|]. left. by exists v.
    + destruct (Js.Object_prototype (PlanRow.block_name row)) eqn:Hname; [done|].
      apply Hstep; [done|]. by right.
Qed.

Lemma grouping_plain plan :
  plain_names plan -> exists g, grouping plan = Ok g.
Proof.
  induction plan as [|row plan IH] using rev_ind; [by exists []|].
  intros [Hplain Hname]%plain_names_snoc.
  destruct (IH Hplain) as [g Hg]. rewrite grouping_snoc, Hg. cbn [bind].
  unfold add_row. cbn zeta. unfold Js.read. rewrite Hname.
  destruct (Js.obj_get _ g); eauto.
Qed.

Lemma grouping_Err plan :
  ~ plain_names plan -> grouping plan = Err TypeError.
Proof.
  induction plan as [|row plan IH] using rev_ind.
  - intros []. apply Forall_nil_2.
  - intros Hnot. rewrite grouping_snoc.
    destruct (grouping plan) as [g|e] eqn:Hg.
    + apply grouping_Ok in Hg as (Hplain & Hget & _). cbn [bind].
      unfold add_row. cbn zeta. unfold Js.read.
      destruct (Js.Object_prototype (PlanRow.block_name row)) eqn:Hname.
      * rewrite Hget.
        destruct (fold_block _) as [v|] eqn:Hv; [|done].
        destruct Hnot. apply plain_names_snoc. split; [done|].
        destruct (block_rows (PlanRow.block_name row) plan) as [|r0 rows0] eqn:Hrows;
          [done|].
        assert (Hr0 : r0 ∈ block_rows (PlanRow.block_name row) plan)
          by (rewrite Hrows; apply list_elem_of_here).
        apply list_elem_of_filter in Hr0 as [Hname0 Hr0].
        rewrite <- Hname0. unfold plain_names in Hplain.
        rewrite Forall_forall in Hplain. by apply Hplain.
      * destruct Hnot. by apply plain_names_snoc.
    + destruct (decide (plain_names plan)) as [Hplain | Hplain].
      * apply grouping_plain in Hplain as [g Hg']. congruence.
      * by rewrite (IH Hplain).
Qed.

Lemma max_set_spec rows :
  0 <= max_set rows
  /\ (forall r, r ∈ rows -> PlanRow.set_number r <= max_set rows)
  /\ ((exists r, r ∈ rows /\ PlanRow.set_number r = max_set rows)
      \/ max_set rows = 0).
Proof.
  induction rows as [|row rows (Hpos & Hub & Hatt)] using rev_ind.
  - split; [done|]. split; [by intros r ?%elem_of_nil | by right].
  - unfold max_set in *. rewrite foldl_snoc.
    split; [lia|]. split.
    + intros r [Hr | ->%list_elem_of_singleton]%elem_of_app; [|lia].
      specialize (Hub r Hr). lia.
    + destruct (Z.max_spec (foldl (λ m r, Z.max m (PlanRow.set_number r)) 0 rows)
        (PlanRow.set_number row)) as [[_ ->] | [_ ->]].
      * left. exists row. split; [|done].
        apply elem_of_app. right. by apply list_elem_of_singleton.
      * destruct Hatt as [(r & Hr & Hmax) | Hzero]; [|by right].
        left. exists r. split; [|done]. apply elem_of_app. by left.
Qed.


Lemma set_add_spec (x : string) (s : list string) :
  NoDup s -> NoDup (set_add x s) /\ forall y, y ∈ set_add x s <-> y ∈ s \/ y = x.
Proof.
  intros Hs. unfold set_add. case_bool_decide as Hx.
  - split; [done|]. intros y. split; [by left|]. by intros [? | ->].
  - split.
    + apply NoDup_app. split; [done|]. split; [|apply NoDup_singleton].
      by intros y Hy ->%list_elem_of_singleton.
    + intros y. rewrite elem_of_app, list_elem_of_singleton. done.
Qed.

Lemma seen_exercises_spec rows :
  NoDup (seen_exercises rows)
  /\ forall x, x ∈ seen_exercises rows <-> x ∈ PlanRow.exercise_id <$> rows.
Proof.
  induction rows as [|row rows [Hnd Hin]] using rev_ind.
  - split; [apply NoDup_nil_2 | done].
  - unfold seen_exercises in *. rewrite foldl_snoc.
    destruct (set_add_spec (PlanRow.exercise_id row) _ Hnd) as [Hnd' Hin'].
    split; [done|]. intros x.
    rewrite Hin', Hin, fmap_app, elem_of_app. cbn.
    by rewrite list_elem_of_singleton.
Qed.


Lemma fold_block_Some rows (v : group) :
  fold_block rows = Some v ->
  rows ≠ [] /\ sets v = max_set rows /\ exercises v = seen_exercises rows.
Proof. destruct rows; [done|]. by intros [= <-]. Qed.

Lemma fold_block_is_Some rows : is_Some (fold_block rows) <-> rows ≠ [].
Proof. destruct rows; split; (done || by intros []). Qed.

Lemma grouping_keys k plan (g : Js.obj group) :
  grouping plan = Ok g ->
  k ∈ g.*1 <-> exists r, r ∈ plan /\ PlanRow.block_name r = k.
Proof.
  intros (_ & Hget & _)%grouping_Ok. split.
  - intros Hk.
    destruct (Js.obj_get k g) as [v|] eqn:Hv;
      [|by apply obj_get_None in Hv].
    rewrite Hget in Hv.
    destruct (block_rows k plan) as [|r rows] eqn:Hrows; [done|].
    assert (Hr : r ∈ block_rows k plan) by (rewrite Hrows; apply list_elem_of_here).
    apply list_elem_of_filter in Hr as [Hname Hr]. by exists r.
  - intros (r & Hr & Hname).
    assert (Hin : r ∈ block_rows k plan) by by apply list_elem_of_filter.
    destruct (Js.obj_get k g) as [v|] eqn:Hv.
    + apply obj_get_Some in Hv. apply list_elem_of_fmap. by exists (k, v).
    + rewrite Hget in Hv.
      destruct (block_rows k plan); [by apply elem_of_nil in Hin | done].
Qed.

(** [blocks] is the sorted list of the entries, each turned into a block. *)
Lemma blocks_eq plan (exMap : ExMap.t) :
  blocks plan exMap
  = (await g <- grouping plan;;
     Ok (to_block exMap
           <$> Js.sort (λ a b, order a.2 - order b.2) (Js.entries g))).
Proof.
  unfold blocks. destruct (grouping plan) as [g|e]; [|done]. cbn [bind].
  f_equal. apply list_fmap_ext. by intros i [k v] _.
Qed.

Lemma blocks_plain plan (exMap : ExMap.t) :
  plain_names plan -> exists bs, blocks plan exMap = Ok bs.
Proof.
  intros [g Hg]%grouping_plain. rewrite blocks_eq, Hg. eauto.
Qed.

Lemma blocks_Err plan (exMap : ExMap.t) :
  ~ plain_names plan -> blocks plan exMap = Err TypeError.
Proof.
  intros Hg%grouping_Err. by rewrite blocks_eq, Hg.
Qed.

Lemma blocks_Ok plan (exMap : ExMap.t) (bs : list block) :
  blocks plan exMap = Ok bs ->
  exists g, grouping plan = Ok g
            /\ bs = to_block exMap
                      <$> Js.sort (λ a b, order a.2 - order b.2) (Js.entries g).
Proof.
  rewrite blocks_eq. destruct (grouping plan) as [g|e]; [|done].
  intros [= <-]. by exists g.
Qed.

Lemma blocks_Permutation plan (exMap : ExMap.t) bs g :
  blocks plan exMap = Ok bs -> grouping plan = Ok g ->
  bs ≡ₚ to_block exMap <$> g.
Proof.
  intros (g' & Hg' & ->)%blocks_Ok Hg. assert (g' = g) as -> by congruence.
  by rewrite sort_Permutation, entries_Permutation.
Qed.

Lemma blocks_elem plan (exMap : ExMap.t) bs (b : block) :
  blocks plan exMap = Ok bs ->
  b ∈ bs <->
  exists v, fold_block (block_rows (name b) plan) = Some v
            /\ b = to_block exMap (name b, v).
Proof.
  intros Hbs. destruct (blocks_Ok _ _ _ Hbs) as (g & Hg & _).
  rewrite (blocks_Permutation _ _ _ _ Hbs Hg), list_elem_of_fmap.
  destruct (grouping_Ok _ _ Hg) as (_ & Hget & Hnd). split.
  - intros ([k v] & -> & Hkv). exists v. split; [|done]. cbn.
    rewrite <- Hget. by apply obj_elem_get.
  - intros (v & Hv & Hb). exists (name b, v). split; [done|].
    rewrite <- Hget in Hv. by apply obj_get_Some.
Qed.

Lemma blocks_names plan (exMap : ExMap.t) bs g :
  blocks plan exMap = Ok bs -> grouping plan = Ok g ->
  name <$> bs ≡ₚ g.*1.
Proof.
  intros Hbs Hg.
  rewrite (blocks_Permutation _ _ _ _ Hbs Hg), <- list_fmap_compose.
  assert (Heq : name ∘ to_block exMap <$> g = g.*1).
  { apply list_fmap_ext. by intros i [k v] _. }
  by rewrite Heq.
Qed.

End Grouping.




(** ** Rendering of a block *)

Section BlockRendering.

Import DayWorkout.

Variable P : gmap string string.



End BlockRendering.

(** The derivation for a plan of one row whose block name is no inherited
    member. *)
Lemma blocks_single (row : PlanRow.t) (exMap : ExMap.t) :
  Js.Object_prototype (PlanRow.block_name row) = None ->
  DayWorkout.blocks [row] exMap
  = Ok [ {| DayWorkout.name := PlanRow.block_name row;
            DayWorkout.setCount := Z.max 0 (PlanRow.set_number row);
            DayWorkout.block_exercises :=
              filter (λ x, ExMap.truthy x = true)
                     [ExMap.get (PlanRow.exercise_id row) exMap];
            DayWorkout.block_prescribed :=
              if Js.truthy_str (PlanRow.prescribed_reps row)
              then Js.assign_str (PlanRow.exercise_id row)
                     (default "" (PlanRow.prescribed_reps row)) ∅
              else ∅ |} ].
Proof.
  intros Hname.
  unfold DayWorkout.blocks, DayWorkout.grouping.
  cbn [foldl bind]. unfold DayWorkout.add_row. cbn [Js.obj_get].
  unfold Js.read. rewrite Hname. cbn [bind Js.obj_set].
  set (v := DayWorkout.with_row _ row).
  assert (Hent : Js.sort (λ a b, DayWorkout.order a.2 - DayWorkout.order b.2)
            (Js.entries [(PlanRow.block_name row, v)])
          = [(PlanRow.block_name row, v)]).
  { unfold Js.entries. cbn [filter list_filter].
    destruct (decide _); destruct (decide _); try done. }
  rewrite Hent. cbn [fmap list_fmap]. subst v. unfold DayWorkout.with_row.
  cbn [DayWorkout.sets DayWorkout.exercises DayWorkout.prescribed].
  unfold DayWorkout.set_add.
  rewrite bool_decide_eq_false_2 by apply not_elem_of_nil.
  done.
Qed.



(** ** The prescription line of a card *)

Lemma or_lit_nonempty (s lit : string) :
  s ≠ "" -> Js.or_lit (Some s) lit = s.
Proof.
  intros Hs. unfold Js.or_lit.
  destruct (String.eqb s "") eqn:Heq; [|done].
  by apply String.eqb_eq in Heq.
Qed.

Lemma or_str_falsy (a b : option string) :
  a = None \/ a = Some "" -> Js.or_str a b = b.
Proof. by intros [-> | ->]. Qed.

Lemma or_str_truthy (s : string) (b : option string) :
  s ≠ "" -> Js.or_str (Some s) b = Some s.
Proof.
  intros Hs. unfold Js.or_str, Js.truthy_str.
  destruct (String.eqb s "") eqn:Heq; [|done].
  by apply String.eqb_eq in Heq.
Qed.

(** Where the block owns an override for the exercise, or the exercise's id
    names no inherited member, the prescription follows the precedence:
    override, else default_reps, else "as assigned". *)
Lemma prescription_precedence (override default_reps : option string)
    (id : string) :
  is_Some override \/ Js.Object_prototype id = None ->
  DayWorkout.prescription (Js.read override id) default_reps
  = Js.Str (Js.or_lit (Js.or_str override default_reps) "as assigned").
Proof.
  unfold Js.read. intros [[s ->] | Hid]; [done|].
  destruct override as [s|]; [done|]. by rewrite Hid.
Qed.

(** C8. The precedence fails for an exercise whose id names a member that
    every object inherits.  The exercise with id "toString" and default_reps
    "8 to 10" is in the catalogue and the plan has one row for it, without
    prescribed_reps: the block has no override, yet the card is handed the
    inherited function as its override, and its prescription is that
    function, not "8 to 10". *)
Theorem prescribed_reps_inherited_override :
  exists b c,
    DayWorkout.blocks [row_toString] catalogue_toString = Ok [b]
    /\ DayWorkout.block_prescribed b = ∅
    /\ DayWorkout.render [row_toString] catalogue_toString
       = Ok [("Core Block", [c])]
    /\ DayWorkout.exercise c = ExMap.Entry (sample_exercise (Some "toString"))
    /\ ExMap.default_reps (DayWorkout.exercise c) = Some "8 to 10"
    /\ DayWorkout.prescribed_text c = Js.NoText (Js.Method "toString")
    /\ DayWorkout.prescribed_text c ≠ Js.Str "8 to 10".
Proof.
  eexists _, _. unfold DayWorkout.render.
  rewrite blocks_single by reflexivity.
  split; [reflexivity|]. split; [reflexivity|].
  split; [vm_compute; reflexivity|].
  split; [reflexivity|]. split; [reflexivity|]. split; [reflexivity|].
  discriminate.
Qed.

(** ** Saving a set *)

Section SaveSet.

Context {St : Type}.
Variable saveStrengthLog : StrengthLog.t → St → result bool * St.
Variable today : string.

Lemma find_first_match (eid : string) (before after : list PlanRow.t)
    (row : PlanRow.t) :
  Forall (λ p, PlanRow.exercise_id p ≠ eid) before ->
  PlanRow.exercise_id row = eid ->
  find (λ p, String.eqb (PlanRow.exercise_id p) eid) (before ++ row :: after)
  = Some row.
Proof.
  intros Hbefore Hrow.
  induction Hbefore as [|p before Hp _ IH]; simpl.
  - by rewrite Hrow, String.eqb_refl.
  - apply String.eqb_neq in Hp. by rewrite Hp.
Qed.

Lemma find_no_match (eid : string) (plan : list PlanRow.t) :
  Forall (λ p, PlanRow.exercise_id p ≠ eid) plan ->
  find (λ p, String.eqb (PlanRow.exercise_id p) eid) plan = None.
Proof.
  induction 1 as [|p plan Hp _ IH]; simpl; [done|].
  apply String.eqb_neq in Hp. by rewrite Hp.
Qed.

(** C3. Saving (exercise_id, set_number) hands the adapter one StrengthLog
    built from the first row of the loaded plan whose exercise_id matches:
    that row's day_id and block_name, whatever block the saved card belongs
    to.  When no row of the loaded plan has that exercise_id, the adapter is
    not called: its state and the status line stay as they were. *)
Theorem onSave_first_matching_row :
  forall (status : string) (st : St) (eid : string) (set_number : Z)
         (data : DayWorkout.entry),
    (forall (before after : list PlanRow.t) (row : PlanRow.t),
       Forall (λ p, PlanRow.exercise_id p ≠ eid) before ->
       PlanRow.exercise_id row = eid ->
       DayWorkout.onSave saveStrengthLog today (before ++ row :: after)
         status st eid set_number data
       = let log :=
           {| StrengthLog.date_iso := today;
              StrengthLog.day_id := PlanRow.day_id row;
              StrengthLog.block_name := PlanRow.block_name row;
              StrengthLog.set_number := set_number;
              StrengthLog.exercise_id := eid;
              StrengthLog.reps_done := DayWorkout.reps_done data;
              StrengthLog.load := DayWorkout.load data;
              StrengthLog.notes := DayWorkout.notes data |} in
         ((saveStrengthLog log st).2,
          match (saveStrengthLog log st).1 with
          | Ok _ => "Saved"
          | Err _ => status
          end))
    /\ (forall plan : list PlanRow.t,
          Forall (λ p, PlanRow.exercise_id p ≠ eid) plan ->
          DayWorkout.onSave saveStrengthLog today plan status st eid
            set_number data = (st, status)).
Proof.
  intros status st eid set_number data. split.
  - intros before after row Hbefore Hrow. unfold DayWorkout.onSave.
    rewrite find_first_match by done. cbn zeta.
    by destruct (saveStrengthLog _ st) as [[ok|e] st'].
  - intros plan Hplan. unfold DayWorkout.onSave.
    by rewrite find_no_match.
Qed.

End SaveSet.

(** With the mock adapter a saved set lands at the end of [strengthLogs]. *)
Lemma onSave_mock_appends (today status eid : string) (set_number : Z)
    (data : DayWorkout.entry) (db : MockDb.t) (row : PlanRow.t)
    (before after : list PlanRow.t) :
  Forall (λ p, PlanRow.exercise_id p ≠ eid) before ->
  PlanRow.exercise_id row = eid ->
  exists log,
    DayWorkout.onSave MockDb.saveStrengthLog today (before ++ row :: after)
      status db eid set_number data
    = (MockDb.mk (MockDb.exercises db) (MockDb.plan db) (MockDb.days db)
         (MockDb.strengthLogs db ++ [log]) (MockDb.cardioPlan db)
         (MockDb.cardioLogs db), "Saved")
    /\ StrengthLog.day_id log = PlanRow.day_id row
    /\ StrengthLog.block_name log = PlanRow.block_name row.
Proof.
  intros Hbefore Hrow. eexists. split.
  - unfold DayWorkout.onSave. rewrite find_first_match by done. reflexivity.
  - done.
Qed.

Lemma onSave_first_matching_row_witness :
  (DayWorkout.onSave MockDb.saveStrengthLog "2025-08-20" two_block_plan ""
     MockDb.MOCK_DB "ex_glute_bridge" 2
     {| DayWorkout.reps_done := Some "10"; DayWorkout.load := Some "20 kg";
        DayWorkout.notes := Some "" |}).2 = "Saved"
  /\ DayWorkout.onSave MockDb.saveStrengthLog "2025-08-20" two_block_plan ""
       MockDb.MOCK_DB "ex_unknown" 2
       {| DayWorkout.reps_done := Some "10"; DayWorkout.load := Some "20 kg";
          DayWorkout.notes := Some "" |} = (MockDb.MOCK_DB, "").
Proof.
  pose proof (onSave_first_matching_row MockDb.saveStrengthLog "2025-08-20" ""
    MockDb.MOCK_DB "ex_glute_bridge" 2
    {| DayWorkout.reps_done := Some "10"; DayWorkout.load := Some "20 kg";
       DayWorkout.notes := Some "" |}) as [Hfound _].
  pose proof (onSave_first_matching_row MockDb.saveStrengthLog "2025-08-20" ""
    MockDb.MOCK_DB "ex_unknown" 2
    {| DayWorkout.reps_done := Some "10"; DayWorkout.load := Some "20 kg";
       DayWorkout.notes := Some "" |}) as [_ Hnone].
  split.
  - pose proof (Hfound []
      [MockDb.seed_row 2 "Core Block" "ex_glute_bridge" "12" 1]
      (MockDb.seed_row 1 "Glute Strength Block" "ex_glute_bridge" "8 to 10" 1)
      ltac:(constructor) eq_refl) as Hsave.
    exact (f_equal snd Hsave).
  - apply Hnone. unfold two_block_plan.
    repeat constructor; discriminate.
Defined.

(** ** The Sheets adapters *)

Section Sheets.

Context `{Runtime}.

Lemma AppTsx_getJSON_reply (r : Http.response) (action : string)
    (params : Js.obj string) :
  replies r ->
  AppTsx.getJSON action params =
    if Http.ok r then
      match JSON_parse (Http.text r) with
      | Some j => Ok j
      | None => Err SyntaxError
      end
    else Err (Error (action +:+ " failed")).
Proof.
  intros Hr. unfold AppTsx.getJSON. cbn zeta. rewrite Hr. cbn [bind].
  by destruct (Http.ok r).
Qed.

Lemma AppTsx_postJSON_reply (r : Http.response) (action : string)
    (payload : Http.payload) :
  replies r ->
  AppTsx.postJSON action payload =
    if Http.ok r then
      match JSON_parse (Http.text r) with
      | Some j => Ok j
      | None => Err SyntaxError
      end
    else Err (Error (action +:+ " failed")).
Proof.
  intros Hr. unfold AppTsx.postJSON. rewrite Hr. cbn [bind].
  by destruct (Http.ok r).
Qed.

Lemma Part000_getJSON_reply (r : Http.response) (action : string)
    (params : Js.obj string) :
  replies r ->
  Part000.getJSON action params =
    match JSON_parse (Http.text r) with
    | Some j => Ok j
    | None =>
        Err (Error ("API returned non-JSON. First 120: "
                    +:+ Js.slice 0 120 (Http.text r)))
    end.
Proof. intros Hr. unfold Part000.getJSON. cbn zeta. by rewrite Hr. Qed.

Lemma Part000_postJSON_reply (r : Http.response) (action : string)
    (payload : Http.payload) :
  replies r ->
  Part000.postJSON action payload =
    match JSON_parse (Http.text r) with
    | Some j => Ok j
    | None => Err SyntaxError
    end.
Proof. intros Hr. unfold Part000.postJSON. cbn zeta. by rewrite Hr. Qed.

(** C10. In src/App.tsx every write of the Sheets adapter reports ok = true
    as soon as the response has a success status and a body that parses as
    JSON: the parsed body, and with it the bridge's own ok field, is dropped,
    so the caller sees the same result whatever the body says. *)
Theorem AppTsx_writes_ignore_body :
  forall (r : Http.response) (body : Js.json) (log : StrengthLog.t)
         (clog : CardioLog.t) (ex : Exercise.t) (row : PlanRow.t),
    replies r ->
    Http.ok r = true ->
    JSON_parse (Http.text r) = Some body ->
    AppTsx.GoogleSheetsAdapter.saveStrengthLog log = Ok true
    /\ AppTsx.GoogleSheetsAdapter.saveCardioLog clog = Ok true
    /\ AppTsx.GoogleSheetsAdapter.addExercise ex = Ok (true, Exercise.id ex)
    /\ AppTsx.GoogleSheetsAdapter.addPlanRow row = Ok true.
Proof.
  intros r body log clog ex row Hr Hok Hbody.
  unfold AppTsx.GoogleSheetsAdapter.saveStrengthLog,
    AppTsx.GoogleSheetsAdapter.saveCardioLog,
    AppTsx.GoogleSheetsAdapter.addExercise,
    AppTsx.GoogleSheetsAdapter.addPlanRow.
  by rewrite !(AppTsx_postJSON_reply r) by done; rewrite Hok, Hbody.
Qed.

End Sheets.

Lemma AppTsx_writes_ignore_body_witness :
  @JSON_parse bridge_reports_failure body_ok_false
    = Some (Js.JObj [("ok", Js.JBool false)])
  /\ @AppTsx.GoogleSheetsAdapter.saveStrengthLog bridge_reports_failure
       sample_log = Ok true
  /\ @AppTsx.GoogleSheetsAdapter.saveCardioLog bridge_reports_failure
       sample_cardio_log = Ok true
  /\ @AppTsx.GoogleSheetsAdapter.addExercise bridge_reports_failure
       (sample_exercise (Some "ex_1")) = Ok (true, Some "ex_1")
  /\ @AppTsx.GoogleSheetsAdapter.addPlanRow bridge_reports_failure
       (MockDb.seed_row 1 "Core Block" "ex_1" "8" 1) = Ok true.
Proof.
  split; [reflexivity|].
  exact (@AppTsx_writes_ignore_body bridge_reports_failure
           {| Http.ok := true; Http.text := body_ok_false |}
           (Js.JObj [("ok", Js.JBool false)]) sample_log sample_cardio_log
           (sample_exercise (Some "ex_1"))
           (MockDb.seed_row 1 "Core Block" "ex_1" "8" 1)
           (λ _, eq_refl) eq_refl eq_refl).
Defined.

(** *** Unparsable response bodies *)

Lemma substring_length (n m : nat) (s : string) :
  String.length (substring n m s) = (m `min` (String.length s - n))%nat.
Proof.
  revert n m. induction s as [|c s IH]; intros [|n] [|m]; simpl; try done.
  all: rewrite ?IH; lia.
Qed.

Lemma substring_prefix (m : nat) (s : string) :
  String.prefix (substring 0 m s) s = true.
Proof.
  revert m. induction s as [|c s IH]; intros [|m]; simpl; try done.
  destruct (Ascii.ascii_dec c c); [apply IH | done].
Qed.

(** C7 as stated fails in src/App.tsx: an HTML page served with a success
    status makes [listDays] reject with the parser's own failure, which
    carries no part of the body. *)
Lemma nonjson_read_counterexample :
  ~ (forall (rt : Runtime) (r : Http.response),
       @replies rt r -> @JSON_parse rt (Http.text r) = None ->
       exists prefix,
         @AppTsx.GoogleSheetsAdapter.listDays rt
         = Err (Error (prefix +:+ Js.slice 0 120 (Http.text r)))).
Proof.
  intros Hclaim.
  destruct (Hclaim
    (sample_runtime {| Http.ok := true; Http.text := body_html |})
    {| Http.ok := true; Http.text := body_html |}
    (λ _, eq_refl) eq_refl) as [prefix Hprefix].
  vm_compute in Hprefix. discriminate Hprefix.
Qed.

Section UnparsableBody.

Context `{Runtime}.

(** C7, amended. When the body of a read response does not parse as JSON, the
    Sheets adapter of the second build rejects listDays, getPlanForDay and
    listCardio with an error whose message ends with the first 120 characters
    of the raw body; the Sheets adapter of src/App.tsx rejects them with the
    parser's own failure when the status is a success, and with
    "<action> failed" otherwise. *)
Theorem nonjson_read_diagnostics :
  forall (r : Http.response) (day : string)
         (dateRange : option (string * string)),
    replies r ->
    JSON_parse (Http.text r) = None ->
    let first120 := Js.slice 0 120 (Http.text r) in
    let diagnostic :=
      Error ("API returned non-JSON. First 120: " +:+ first120) in
    (Part000.GoogleSheetsAdapter.listDays = Err diagnostic
     /\ Part000.GoogleSheetsAdapter.getPlanForDay day = Err diagnostic
     /\ Part000.GoogleSheetsAdapter.listCardio dateRange = Err diagnostic)
    /\ (String.prefix first120 (Http.text r) = true
        /\ String.length first120
           = (120 `min` String.length (Http.text r))%nat)
    /\ (Http.ok r = true ->
        AppTsx.GoogleSheetsAdapter.listDays = Err SyntaxError
        /\ AppTsx.GoogleSheetsAdapter.getPlanForDay day = Err SyntaxError
        /\ AppTsx.GoogleSheetsAdapter.listCardio = Err SyntaxError)
    /\ (Http.ok r = false ->
        AppTsx.GoogleSheetsAdapter.listDays = Err (Error "listDays failed")
        /\ AppTsx.GoogleSheetsAdapter.getPlanForDay day
           = Err (Error "getPlanForDay failed")
        /\ AppTsx.GoogleSheetsAdapter.listCardio
           = Err (Error "listCardio failed")).
Proof.
  intros r day dateRange Hr Hparse. cbn zeta.
  unfold Part000.GoogleSheetsAdapter.listDays,
    Part000.GoogleSheetsAdapter.getPlanForDay,
    Part000.GoogleSheetsAdapter.listCardio,
    AppTsx.GoogleSheetsAdapter.listDays,
    AppTsx.GoogleSheetsAdapter.getPlanForDay,
    AppTsx.GoogleSheetsAdapter.listCardio.
  cbn zeta.
  rewrite !(Part000_getJSON_reply r), !(AppTsx_getJSON_reply r) by done.
  rewrite Hparse. cbn [bind].
  split; [done|]. split.
  - unfold Js.slice. split; [apply substring_prefix|].
    rewrite substring_length. lia.
  - split; intros ->; done.
Qed.

End UnparsableBody.

Lemma nonjson_read_diagnostics_witness :
  @Part000.GoogleSheetsAdapter.listDays
    (sample_runtime {| Http.ok := true; Http.text := body_html |})
  = Err (Error ("API returned non-JSON. First 120: " +:+ body_html))
  /\ @AppTsx.GoogleSheetsAdapter.listDays
       (sample_runtime {| Http.ok := true; Http.text := body_html |})
     = Err SyntaxError.
Proof.
  pose proof (@nonjson_read_diagnostics
    (sample_runtime {| Http.ok := true; Http.text := body_html |})
    {| Http.ok := true; Http.text := body_html |} "Day 1" None
    (λ _, eq_refl) eq_refl) as (Hnew & _ & Hold & _).
  split.
  - exact (proj1 Hnew).
  - exact (proj1 (Hold eq_refl)).
Defined.

(** *** The cardio plan under either key *)


Section CardioKeys.

Context `{Runtime}.


End CardioKeys.


(** *** The identifier returned by addExercise *)


Section AddExerciseId.

Context `{Runtime}.


End AddExerciseId.


(** *** Identifiers assigned by the mock adapter *)

(** C4 as stated fails in the second build, whose mock stores an exercise
    without id under the key "undefined" and assigns nothing; and in
    src/App.tsx the generated suffix is shorter than 8 characters when the
    number drawn has a short base-36 form, as 0.5 has ("0.i"). *)
Lemma mock_addExercise_counterexample :
  ~ (forall (ex : Exercise.t) (db : MockDb.t),
       Exercise.id ex = None ->
       exists suffix,
         String.length suffix = 8%nat
         /\ (Part000.MockAdapter.addExercise ex db).1
            = (true, Some ("ex_" +:+ suffix)))
  /\ ~ (forall (rnd : string) (ex : Exercise.t) (db : MockDb.t),
          Exercise.id ex = None ->
          exists suffix,
            String.length suffix = 8%nat
            /\ (AppTsx.MockAdapter.addExercise rnd ex db).1
               = (true, "ex_" +:+ suffix)).
Proof.
  split; intros Hclaim.
  - destruct (Hclaim (sample_exercise None) MockDb.MOCK_DB eq_refl)
      as (suffix & _ & Hid).
    discriminate Hid.
  - destruct (Hclaim "0.i" (sample_exercise None) MockDb.MOCK_DB eq_refl)
      as (suffix & Hlen & Hid).
    vm_compute in Hid. inversion Hid; subst suffix. discriminate Hlen.
Qed.

(** Assignment to the catalogue and the lookups that follow it. *)
Lemma ExMap_get_set (k : string) (e : Exercise.t) (m : ExMap.t) :
  ExMap.get k (ExMap.set k e m) = ExMap.Entry e.
Proof.
  unfold ExMap.set, ExMap.get.
  destruct (String.eqb k "__proto__") eqn:Hk; cbn [andb].
  - case_bool_decide as Hown; cbn [ExMap.own ExMap.proto].
    + by rewrite Hown.
    + by rewrite lookup_insert_eq.
  - cbn [ExMap.own]. by rewrite lookup_insert_eq.
Qed.

Lemma ExMap_set_own (k : string) (e : Exercise.t) (m : ExMap.t) :
  k ≠ "__proto__" ->
  ExMap.set k e m = ExMap.mk (<[k := e]> (ExMap.own m)) (ExMap.proto m).
Proof.
  intros Hk%String.eqb_neq. unfold ExMap.set. by rewrite Hk.
Qed.

Lemma generated_id_own (suffix : string) : "ex_" +:+ suffix ≠ "__proto__".
Proof. discriminate. Qed.

(** C4, amended. The mock adapter of src/App.tsx stores an exercise whose id
    is present and non-empty under that id; for an absent or empty id it
    builds the identifier "ex_" followed by characters 2 to 9 of the base-36
    rendering of the number drawn (8 characters when the rendering has at
    least 10, fewer otherwise), stores the record with that id under it, and
    returns ok = true with the assigned exercise_id.  The mock adapter of the
    second build assigns nothing: it stores the record as given under the id
    it carries (under "undefined" when there is none) and returns that id.
    Stored under an id means that the catalogue then answers that id with
    the record, which it owns unless the id is "__proto__". *)
Theorem mock_addExercise_ids :
  forall (rnd : string) (ex : Exercise.t) (db : MockDb.t),
    (forall id, Exercise.id ex = Some id -> id ≠ "" ->
       let after := AppTsx.MockAdapter.addExercise rnd ex db in
       after.1 = (true, id)
       /\ ExMap.get id (MockDb.exercises after.2) = ExMap.Entry ex
       /\ (id ≠ "__proto__" ->
           ExMap.own (MockDb.exercises after.2) !! id = Some ex))
    /\ (Exercise.id ex = None \/ Exercise.id ex = Some "" ->
        let suffix := Js.slice 2 10 rnd in
        let id := "ex_" +:+ suffix in
        let record := Exercise.with_id id ex in
        let after := AppTsx.MockAdapter.addExercise rnd ex db in
        after.1 = (true, id)
        /\ ExMap.get id (MockDb.exercises after.2) = ExMap.Entry record
        /\ ExMap.own (MockDb.exercises after.2) !! id = Some record
        /\ String.length suffix = (8 `min` (String.length rnd - 2))%nat)
    /\ (let after := Part000.MockAdapter.addExercise ex db in
        after.1 = (true, Exercise.id ex)
        /\ ExMap.get (Js.prop_key (Exercise.id ex)) (MockDb.exercises after.2)
           = ExMap.Entry ex
        /\ (Exercise.id ex ≠ Some "__proto__" ->
            ExMap.own (MockDb.exercises after.2)
              !! Js.prop_key (Exercise.id ex) = Some ex)).
Proof.
  intros rnd ex db. split; [|split].
  - intros id Hid Hne. cbn zeta. unfold AppTsx.MockAdapter.addExercise.
    cbn zeta. rewrite Hid, or_lit_nonempty by done.
    cbn [fst snd MockDb.with_exercise MockDb.exercises].
    assert (Hrec : Exercise.with_id id ex = ex).
    { destruct ex; unfold Exercise.with_id; cbn in *. by subst. }
    rewrite Hrec. split; [done|]. split; [apply ExMap_get_set|].
    intros Hproto. rewrite ExMap_set_own by done. cbn [ExMap.own].
    by rewrite lookup_insert_eq.
  - intros Hid. cbn zeta. unfold AppTsx.MockAdapter.addExercise. cbn zeta.
    assert (Hlit : Js.or_lit (Exercise.id ex) ("ex_" +:+ Js.slice 2 10 rnd)
                   = "ex_" +:+ Js.slice 2 10 rnd)
      by (by destruct Hid as [-> | ->]).
    rewrite Hlit. cbn [fst snd MockDb.with_exercise MockDb.exercises].
    split; [done|]. split; [apply ExMap_get_set|]. split.
    + rewrite ExMap_set_own by apply generated_id_own. cbn [ExMap.own].
      by rewrite lookup_insert_eq.
    + unfold Js.slice. rewrite substring_length. lia.
  - cbn zeta. unfold Part000.MockAdapter.addExercise.
    cbn [fst snd MockDb.with_exercise MockDb.exercises].
    split; [done|]. split; [apply ExMap_get_set|].
    intros Hproto. rewrite ExMap_set_own.
    + cbn [ExMap.own]. by rewrite lookup_insert_eq.
    + destruct (Exercise.id ex) as [id|]; cbn; [congruence|discriminate].
Qed.

Lemma mock_addExercise_ids_witness :
  (AppTsx.MockAdapter.addExercise "0.4fzyo82mvyr" (sample_exercise None)
     MockDb.MOCK_DB).1 = (true, "ex_4fzyo82m")
  /\ (AppTsx.MockAdapter.addExercise "0.4fzyo82mvyr"
        (sample_exercise (Some "ex_hip_thrust")) MockDb.MOCK_DB).1
     = (true, "ex_hip_thrust").
Proof.
  pose proof (mock_addExercise_ids "0.4fzyo82mvyr" (sample_exercise None)
    MockDb.MOCK_DB) as (_ & Hnew & _).
  pose proof (mock_addExercise_ids "0.4fzyo82mvyr"
    (sample_exercise (Some "ex_hip_thrust")) MockDb.MOCK_DB) as (Hkeep & _).
  split.
  - exact (proj1 (Hnew (or_introl eq_refl))).
  - refine (proj1 (Hkeep "ex_hip_thrust" eq_refl _)). discriminate.
Defined.

(** ** The icon generator *)

Lemma agrees_up_to_4096 : forallb GenIcons.agrees (seqZ 1 4096) = true.
Proof. vm_compute. reflexivity. Qed.

(** C9. For every icon size [renderPadded] takes as inner box the binary64
    value of round(size * (1 - 2 * 0.12)), composites the artwork at the
    offset round((size - inner) / 2) from the left and from the top, and asks
    for a size by size canvas; for every size from 1 to 4096 pixels these are
    the exact round(size * 76 / 100) and round((size - inner) / 2), ties
    upwards.  For size 512 the inner box is 389 pixels and the offset is 62,
    which leaves 512 - 389 - 62 = 61 pixels on the opposite side. *)
Theorem icon_padding_arithmetic :
  (forall (size : Z) (maskable : bool) (c : GenIcons.composite),
     GenIcons.renderPadded size maskable = Some c ->
     GenIcons.width c = size /\ GenIcons.height c = size
     /\ GenIcons.inner_box size = Some (GenIcons.inner c)
     /\ GenIcons.offset size (GenIcons.inner c) = Some (GenIcons.left c)
     /\ GenIcons.top c = GenIcons.left c)
  /\ (forall (size : Z) (maskable : bool), 1 <= size <= 4096 ->
        GenIcons.renderPadded size maskable =
          Some {| GenIcons.width := size; GenIcons.height := size;
                  GenIcons.canvas_bg :=
                    if maskable then GenIcons.Transparent
                    else GenIcons.Solid GenIcons.BG;
                  GenIcons.inner := GenIcons.inner_exact size;
                  GenIcons.left :=
                    GenIcons.offset_exact size (GenIcons.inner_exact size);
                  GenIcons.top :=
                    GenIcons.offset_exact size (GenIcons.inner_exact size) |})
  /\ GenIcons.inner_box 512 = Some 389
  /\ GenIcons.offset 512 389 = Some 62
  /\ 512 - 389 - 62 = 61.
Proof.
  split.
  { intros size maskable c. unfold GenIcons.renderPadded.
    destruct (GenIcons.inner_box size) as [i|]; [|done]. cbn.
    destruct (GenIcons.offset size i) as [o|] eqn:Ho; [|done]. cbn.
    by intros [= <-]. }
  split; [|by vm_compute].
  intros size maskable Hsize.
  assert (Hin : size ∈ seqZ 1 4096) by (apply elem_of_seqZ; lia).
  pose proof agrees_up_to_4096 as Hall.
  rewrite forallb_forall in Hall.
  apply list_elem_of_In, Hall in Hin.
  unfold GenIcons.agrees in Hin.
  apply andb_prop in Hin as [Hf Ht].
  apply bool_decide_eq_true in Hf, Ht.
  by destruct maskable.
Qed.

Lemma icon_padding_arithmetic_witness :
  1 <= 512 <= 4096 /\
  GenIcons.renderPadded 512 true =
    Some {| GenIcons.width := 512; GenIcons.height := 512;
            GenIcons.canvas_bg := GenIcons.Transparent;
            GenIcons.inner := 389; GenIcons.left := 62; GenIcons.top := 62 |}.
Proof.
  split; [lia|].
  exact (proj1 (proj2 icon_padding_arithmetic) 512 true ltac:(lia)).
Defined.

(** * Further properties of the code *)

(** ** Sorting with a comparator *)

Section SortFacts.

Context {A : Type} (cmp : A → A → Z).

Let le (a b : A) : Prop := cmp a b <= 0.

Hypothesis cmp_total : forall a b, cmp a b <= 0 \/ cmp b a <= 0.
Hypothesis cmp_trans : forall a b c, cmp a b <= 0 -> cmp b c <= 0 -> cmp a c <= 0.

Lemma sort_insert_sorted (x : A) (l : list A) :
  StronglySorted le l -> StronglySorted le (Js.sort_insert cmp x l).
Proof.
  induction 1 as [|y l Hl IH Hy]; simpl.
  - by repeat constructor.
  - destruct (Z.leb_spec (cmp x y) 0) as [Hxy | Hxy].
    + constructor; [by constructor|]. constructor; [done|].
      eapply Forall_impl; [exact Hy|]. intros z Hz. by eapply cmp_trans.
    + constructor; [done|].
      assert (Hyx : cmp y x <= 0) by (destruct (cmp_total x y); [lia|done]).
      rewrite sort_insert_Permutation. by constructor.
Qed.

Lemma sort_sorted (l : list A) : StronglySorted le (Js.sort cmp l).
Proof.
  induction l as [|x l IH]; [constructor|].
  by apply sort_insert_sorted.
Qed.

(** A list that is already in order comes back unchanged, so that elements
    that compare equal keep their places. *)
Lemma sort_ordered_id (l : list A) : StronglySorted le l -> Js.sort cmp l = l.
Proof.
  induction 1 as [|x l Hl IH Hx]; [done|].
  unfold Js.sort in *. simpl. rewrite IH.
  destruct Hx as [|y l Hxy _]; [done|]. simpl.
  by rewrite (proj2 (Z.leb_le _ _) Hxy).
Qed.

Lemma sort_idempotent (l : list A) :
  Js.sort cmp (Js.sort cmp l) = Js.sort cmp l.
Proof. apply sort_ordered_id, sort_sorted. Qed.

End SortFacts.

Lemma StronglySorted_impl {A} (R R' : A → A → Prop) (l : list A) :
  (forall a b, R a b -> R' a b) -> StronglySorted R l -> StronglySorted R' l.
Proof.
  intros HR. induction 1 as [|x l Hl IH Hx]; constructor; [done|].
  eapply Forall_impl; [exact Hx|]. auto.
Qed.

Lemma StronglySorted_fmap_2 {A B} (f : A → B) (R : B → B → Prop) (l : list A) :
  StronglySorted (λ a b, R (f a) (f b)) l -> StronglySorted R (f <$> l).
Proof.
  induction 1 as [|x l Hl IH Hx]; csimpl; constructor; [done|].
  apply Forall_fmap. eapply Forall_impl; [exact Hx|]. done.
Qed.

(** ** The mock adapter's plan of a day *)

(** X1. The mock adapter of src/App.tsx returns for a day exactly the stored
    rows of that day, ordered by block_order and then set_number, together
    with the whole exercise catalogue; rows that are stored in that order
    already come back as stored, which is what the second build returns. *)
Theorem AppTsx_mock_plan_sorted :
  forall (day : string) (db : MockDb.t),
    (AppTsx.MockAdapter.getPlanForDay day db).1
      ≡ₚ (Part000.MockAdapter.getPlanForDay day db).1
    /\ StronglySorted plan_row_le (AppTsx.MockAdapter.getPlanForDay day db).1
    /\ (forall r, r ∈ (AppTsx.MockAdapter.getPlanForDay day db).1
                  <-> r ∈ MockDb.plan db /\ PlanRow.day_id r = day)
    /\ (AppTsx.MockAdapter.getPlanForDay day db).2 = MockDb.exercises db
    /\ (StronglySorted plan_row_le (Part000.MockAdapter.getPlanForDay day db).1
        -> (AppTsx.MockAdapter.getPlanForDay day db).1
           = (Part000.MockAdapter.getPlanForDay day db).1).
Proof.
  intros day db.
  unfold AppTsx.MockAdapter.getPlanForDay, Part000.MockAdapter.getPlanForDay.
  cbn [fst snd].
  set (cmp := λ a b : PlanRow.t,
    if PlanRow.block_order a - PlanRow.block_order b =? 0
    then PlanRow.set_number a - PlanRow.set_number b
    else PlanRow.block_order a - PlanRow.block_order b).
  set (rows := filter (λ p, PlanRow.day_id p = day) (MockDb.plan db)).
  assert (Hle : forall a b, cmp a b <= 0 <-> plan_row_le a b).
  { intros a b. unfold cmp, plan_row_le.
    destruct (Z.eqb_spec (PlanRow.block_order a - PlanRow.block_order b) 0);
      lia. }
  assert (Htotal : forall a b, cmp a b <= 0 \/ cmp b a <= 0).
  { intros a b. rewrite !Hle. unfold plan_row_le. lia. }
  assert (Htrans : forall a b c, cmp a b <= 0 -> cmp b c <= 0 -> cmp a c <= 0).
  { intros a b c. rewrite !Hle. unfold plan_row_le. lia. }
  split; [apply sort_Permutation|]. split.
  { eapply StronglySorted_impl; [|by apply sort_sorted].
    intros a b. apply Hle. }
  split.
  { intros r. rewrite sort_Permutation. unfold rows.
    rewrite list_elem_of_filter. tauto. }
  split; [done|].
  intros Hsorted. apply sort_ordered_id.
  eapply StronglySorted_impl; [|exact Hsorted]. intros a b. apply Hle.
Qed.

Lemma AppTsx_mock_plan_sorted_witness :
  StronglySorted plan_row_le
    (Part000.MockAdapter.getPlanForDay "Day 1" MockDb.MOCK_DB).1
  /\ (AppTsx.MockAdapter.getPlanForDay "Day 1" MockDb.MOCK_DB).1
     = (Part000.MockAdapter.getPlanForDay "Day 1" MockDb.MOCK_DB).1.
Proof.
  assert (Hsorted : StronglySorted plan_row_le
    (Part000.MockAdapter.getPlanForDay "Day 1" MockDb.MOCK_DB).1).
  { replace (Part000.MockAdapter.getPlanForDay "Day 1" MockDb.MOCK_DB).1
      with (MockDb.plan MockDb.MOCK_DB) by (vm_compute; reflexivity).
    change (MockDb.plan MockDb.MOCK_DB) with
      [ MockDb.seed_row 1 "Glute Strength Block" "ex_glute_bridge" "8 to 10" 1;
        MockDb.seed_row 1 "Glute Strength Block" "ex_glute_bridge" "8 to 10" 2;
        MockDb.seed_row 1 "Glute Strength Block" "ex_glute_bridge" "8 to 10" 3;
        MockDb.seed_row 2 "Core Block" "ex_banded_deadbug" "6 each side" 1;
        MockDb.seed_row 2 "Core Block" "ex_banded_deadbug" "6 each side" 2;
        MockDb.seed_row 2 "Core Block" "ex_banded_deadbug" "6 each side" 3 ].
    repeat match goal with
           | |- StronglySorted _ _ => constructor
           | |- Forall _ _ => constructor
           | |- plan_row_le _ _ => unfold plan_row_le; cbn; lia
           end. }
  split; [exact Hsorted|].
  exact (proj2 (proj2 (proj2 (proj2
    (AppTsx_mock_plan_sorted "Day 1" MockDb.MOCK_DB)))) Hsorted).
Defined.

(** ** What the derived blocks hold *)

Section BlockContents.

Import DayWorkout PerBlock.

Implicit Types (plan rows : list PlanRow.t) (row r : PlanRow.t) (k : string).

Lemma fold_block_fields rows (v : group) :
  fold_block rows = Some v ->
  PlanRow.block_order <$> head rows = Some (order v)
  /\ prescribed v = overrides rows.
Proof. destruct rows; [done|]. by intros [= <-]. Qed.

Lemma StronglySorted_Forall {A} (R : A → A → Prop) (P : A → Prop) (l : list A) :
  StronglySorted R l -> Forall P l ->
  StronglySorted (λ a b, R a b /\ P a /\ P b) l.
Proof.
  induction 1 as [|x l Hl IH Hx]; intros HP; [constructor|].
  apply Forall_cons in HP as [HPx HP]. constructor; [by apply IH|].
  rewrite Forall_forall in Hx, HP. apply Forall_forall. intros y Hy.
  split; [by apply Hx|]. split; [done|by apply HP].
Qed.

Lemma overrides_snoc rows row :
  overrides (rows ++ [row])
  = if Js.truthy_str (PlanRow.prescribed_reps row)
    then Js.assign_str (PlanRow.exercise_id row)
           (default "" (PlanRow.prescribed_reps row)) (overrides rows)
    else overrides rows.
Proof. unfold overrides. by rewrite foldl_snoc. Qed.

Lemma truthy_str_Some (o : option string) :
  Js.truthy_str o = true -> exists s, o = Some s /\ s ≠ "".
Proof.
  destruct o as [s|]; [|done]. cbn. intros Hs. exists s. split; [done|].
  intros ->. done.
Qed.

Lemma assign_str_lookup (k s e : string) (o : gmap string string) :
  Js.assign_str k s o !! e
  = if decide (k = e /\ k ≠ "__proto__") then Some s else o !! e.
Proof.
  unfold Js.assign_str. destruct (String.eqb k "__proto__") eqn:Hk.
  - apply String.eqb_eq in Hk. by rewrite decide_False by tauto.
  - apply String.eqb_neq in Hk. rewrite lookup_insert.
    case_decide as He; [by rewrite decide_True|by rewrite decide_False by tauto].
Qed.

Lemma overrides_lookup_Some rows (e s : string) :
  overrides rows !! e = Some s ->
  s ≠ "" /\ e ≠ "__proto__"
  /\ exists r, r ∈ rows /\ PlanRow.exercise_id r = e
               /\ PlanRow.prescribed_reps r = Some s.
Proof.
  induction rows as [|row rows IH] using rev_ind; [done|].
  rewrite overrides_snoc.
  assert (Hkeep : overrides rows !! e = Some s ->
    s ≠ "" /\ e ≠ "__proto__"
    /\ exists r, r ∈ rows ++ [row] /\ PlanRow.exercise_id r = e
                 /\ PlanRow.prescribed_reps r = Some s).
  { intros Hlook. destruct (IH Hlook) as (? & ? & r & ? & ? & ?).
    split; [done|]. split; [done|]. exists r.
    split; [apply elem_of_app; by left | done]. }
  destruct (Js.truthy_str (PlanRow.prescribed_reps row)) eqn:Htruthy; [|done].
  apply truthy_str_Some in Htruthy as (s' & Hs' & Hne). rewrite Hs'. cbn.
  rewrite assign_str_lookup. case_decide as He; [|done].
  destruct He as [<- Hproto]. intros [= <-]. split; [done|]. split; [done|].
  exists row. split; [apply elem_of_app; right; apply list_elem_of_here | done].
Qed.

Lemma overrides_lookup_None rows (e : string) :
  e = "__proto__"
  \/ Forall (λ r, PlanRow.exercise_id r = e ->
                  Js.truthy_str (PlanRow.prescribed_reps r) = false) rows ->
  overrides rows !! e = None.
Proof.
  intros He.
  destruct (overrides rows !! e) as [s|] eqn:Hlook; [|done].
  apply overrides_lookup_Some in Hlook
    as (Hne & Hproto & r & Hr & Hid & Hs).
  destruct He as [-> | Hall]; [done|].
  rewrite Forall_forall in Hall. specialize (Hall r Hr Hid).
  rewrite Hs in Hall. cbn in Hall.
  destruct (String.eqb s "") eqn:Heq; [|done].
  by apply String.eqb_eq in Heq.
Qed.

Lemma overrides_app_keep rows rows' (e : string) :
  Forall (λ r, PlanRow.exercise_id r = e ->
               Js.truthy_str (PlanRow.prescribed_reps r) = false) rows' ->
  overrides (rows ++ rows') !! e = overrides rows !! e.
Proof.
  induction rows' as [|row rows' IH] using rev_ind;
    [by rewrite app_nil_r|].
  intros [Hrows Hrow]%Forall_app. rewrite Forall_singleton in Hrow.
  rewrite app_assoc, overrides_snoc.
  destruct (Js.truthy_str (PlanRow.prescribed_reps row)) eqn:Htruthy;
    [|by apply IH].
  rewrite assign_str_lookup. case_decide as He; [|by apply IH].
  destruct He as [He _]. specialize (Hrow He). congruence.
Qed.

Lemma block_of_rows plan (exMap : ExMap.t) bs (b : block) :
  blocks plan exMap = Ok bs ->
  b ∈ bs ->
  block_rows (name b) plan ≠ []
  /\ first_order (name b) plan
     = PlanRow.block_order <$> head (block_rows (name b) plan)
  /\ setCount b = max_set (block_rows (name b) plan)
  /\ block_exercises b
     = filter (λ x, ExMap.truthy x = true)
         ((λ id, ExMap.get id exMap)
            <$> seen_exercises (block_rows (name b) plan))
  /\ block_prescribed b = overrides (block_rows (name b) plan).
Proof.
  intros Hbs (v & Hv & Hb)%(blocks_elem _ _ _ _ Hbs).
  pose proof (f_equal setCount Hb) as Hcount.
  pose proof (f_equal block_exercises Hb) as Hex.
  pose proof (f_equal block_prescribed Hb) as Hpre.
  cbn in Hcount, Hex, Hpre.
  destruct (fold_block_Some _ _ Hv) as (Hne & Hsets & Hseen).
  destruct (fold_block_fields _ _ Hv) as (_ & Hover).
  by rewrite Hcount, Hex, Hpre, Hsets, Hseen, Hover.
Qed.

(** With a plain catalogue, a lookup yields a record of it or nothing. *)
Lemma plain_ids_get plan (exMap : ExMap.t) r :
  plain_ids plan exMap -> r ∈ plan ->
  ExMap.get (PlanRow.exercise_id r) exMap
  = match ExMap.own exMap !! PlanRow.exercise_id r with
    | Some e => ExMap.Entry e
    | None => ExMap.Undefined
    end.
Proof.
  intros [Hproto Hids] Hr. rewrite Forall_forall in Hids.
  specialize (Hids r Hr). unfold ExMap.get, ExMap.inherited.
  destruct (ExMap.own exMap !! PlanRow.exercise_id r); [done|].
  by rewrite Hproto, Hids.
Qed.

End BlockContents.

Section FirstSeen.

Import DayWorkout PerBlock.

Lemma seen_from (s : list string) (rows : list PlanRow.t) :
  foldl (λ s r, set_add (PlanRow.exercise_id r) s) s rows
  = s ++ filter (λ x, x ∉ s) (seen_exercises rows).
Proof.
  unfold seen_exercises. revert s.
  induction rows as [|r rows IH]; intros s; cbn [foldl].
  - by rewrite filter_nil, app_nil_r.
  - rewrite (IH (set_add _ s)), (IH (set_add _ [])).
    set (x := PlanRow.exercise_id r).
    set (L := foldl _ [] rows).
    unfold set_add.
    rewrite (bool_decide_eq_false_2 (x ∈ [])) by apply not_elem_of_nil.
    change ([] ++ [x]) with [x].
    rewrite filter_app, filter_cons, filter_nil, list_filter_filter.
    case_bool_decide as Hx.
    + rewrite decide_False by tauto. cbn [app]. f_equal.
      apply list_filter_iff. intros y. split; [|tauto].
      intros Hy. split; [done|].
      intros ->%list_elem_of_singleton. by apply Hy.
    + rewrite decide_True by done. rewrite <- app_assoc. cbn [app].
      do 2 f_equal. apply list_filter_iff. intros y.
      rewrite elem_of_app, !list_elem_of_singleton. tauto.
Qed.

(** An exercise takes the place of the first row that names it. *)
Lemma seen_exercises_cons (r : PlanRow.t) (rows : list PlanRow.t) :
  seen_exercises (r :: rows)
  = PlanRow.exercise_id r
    :: filter (λ x, x ≠ PlanRow.exercise_id r) (seen_exercises rows).
Proof.
  unfold seen_exercises at 1. cbn [foldl]. rewrite seen_from.
  unfold set_add. rewrite bool_decide_eq_false_2 by apply not_elem_of_nil.
  change ([] ++ [PlanRow.exercise_id r]) with [PlanRow.exercise_id r].
  cbn [app]. f_equal. apply list_filter_iff. intros y.
  by rewrite list_elem_of_singleton.
Qed.

End FirstSeen.

Lemma render_Ok plan (exMap : ExMap.t) rendered :
  DayWorkout.render plan exMap = Ok rendered ->
  exists bs,
    DayWorkout.blocks plan exMap = Ok bs
    /\ rendered
       = (λ b, DayWorkout.Block (DayWorkout.name b) (DayWorkout.setCount b)
                 (DayWorkout.block_exercises b) (DayWorkout.block_prescribed b))
         <$> bs.
Proof.
  unfold DayWorkout.render.
  destruct (DayWorkout.blocks plan exMap) as [bs|e]; [|done].
  intros [= <-]. by exists bs.
Qed.

Lemma plain_lookups (exMap : ExMap.t) (ids : list string) :
  Forall (λ id, ExMap.get id exMap
                = match ExMap.own exMap !! id with
                  | Some e => ExMap.Entry e
                  | None => ExMap.Undefined
                  end) ids ->
  filter (λ x, ExMap.truthy x = true) ((λ id, ExMap.get id exMap) <$> ids)
  = ExMap.Entry <$> omap (λ id, ExMap.own exMap !! id) ids.
Proof.
  induction 1 as [|id ids Hid Hids IH]; [done|].
  rewrite fmap_cons, filter_cons, Hid, IH. cbn [omap list_omap].
  by destruct (ExMap.own exMap !! id).
Qed.

(** X2. When no block is named after a member that every object inherits,
    the blocks are derived and come in ascending order of the block_order
    that each block took from its first row in the plan. *)
Theorem blocks_ascending_order :
  forall (plan : list PlanRow.t) (exMap : ExMap.t),
    plain_names plan ->
    exists bs,
      DayWorkout.blocks plan exMap = Ok bs
      /\ StronglySorted
           (λ b b', exists o o',
              first_order (DayWorkout.name b) plan = Some o
              /\ first_order (DayWorkout.name b') plan = Some o' /\ o <= o')
           bs.
Proof.
  intros plan exMap Hplain.
  destruct (blocks_plain plan exMap Hplain) as [bs Hbs].
  exists bs. split; [done|].
  destruct (blocks_Ok _ _ _ Hbs) as (g & Hg & ->).
  destruct (grouping_Ok _ _ Hg) as (_ & Hget & Hnd).
  apply StronglySorted_fmap_2.
  set (cmp := λ a b : string * DayWorkout.group,
    DayWorkout.order a.2 - DayWorkout.order b.2).
  assert (Hsorted : StronglySorted (λ a b, cmp a b <= 0)
            (Js.sort cmp (Js.entries g))).
  { apply sort_sorted; unfold cmp; intros; lia. }
  assert (Hall : Forall
    (λ kv : string * DayWorkout.group,
       first_order kv.1 plan = Some (DayWorkout.order kv.2))
    (Js.sort cmp (Js.entries g))).
  { apply Forall_forall. intros [k v] Hkv.
    rewrite sort_Permutation, entries_Permutation in Hkv.
    apply obj_elem_get in Hkv; [|done].
    rewrite Hget in Hkv.
    by apply fold_block_fields in Hkv as [Hfirst _]. }
  eapply StronglySorted_impl;
    [|exact (StronglySorted_Forall _ _ _ Hsorted Hall)].
  intros [k v] [k' v'] (Hle & Hk & Hk'). cbn in *.
  exists (DayWorkout.order v), (DayWorkout.order v').
  unfold cmp in Hle. cbn in Hle. repeat split; [done..|lia].
Qed.

Lemma blocks_ascending_order_witness :
  plain_names two_block_plan
  /\ exists bs,
       DayWorkout.blocks two_block_plan (MockDb.exercises MockDb.MOCK_DB)
       = Ok bs
       /\ StronglySorted
            (λ b b', exists o o',
               first_order (DayWorkout.name b) two_block_plan = Some o
               /\ first_order (DayWorkout.name b') two_block_plan = Some o'
               /\ o <= o')
            bs.
Proof.
  assert (Hplain : plain_names two_block_plan) by (repeat constructor).
  split; [exact Hplain|].
  exact (blocks_ascending_order two_block_plan
           (MockDb.exercises MockDb.MOCK_DB) Hplain).
Defined.

(** X3. The prescribed-reps object of a derived block owns, for an
    exercise, the prescribed_reps of the last row of the block that names
    the exercise with a non-empty value, unless the exercise is called
    "__proto__", under which nothing is ever stored.  It owns nothing for
    an exercise whose rows all lack a value, so that a lookup of it gives
    what every object inherits under that name, or nothing; and it never
    owns an empty text. *)
Theorem block_prescribed_last_override :
  forall (plan : list PlanRow.t) (exMap : ExMap.t)
         (bs : list DayWorkout.block) (b : DayWorkout.block),
    DayWorkout.blocks plan exMap = Ok bs ->
    b ∈ bs ->
    (forall (before after : list PlanRow.t) (r : PlanRow.t) (s : string),
       PerBlock.block_rows (DayWorkout.name b) plan = before ++ r :: after ->
       PlanRow.prescribed_reps r = Some s -> s ≠ "" ->
       PlanRow.exercise_id r ≠ "__proto__" ->
       Forall (λ r', PlanRow.exercise_id r' = PlanRow.exercise_id r ->
                     PlanRow.prescribed_reps r' = None
                     \/ PlanRow.prescribed_reps r' = Some "") after ->
       DayWorkout.block_prescribed b !! PlanRow.exercise_id r = Some s)
    /\ (forall e : string,
          e = "__proto__"
          \/ (forall r, r ∈ plan -> PlanRow.block_name r = DayWorkout.name b ->
                        PlanRow.exercise_id r = e ->
                        PlanRow.prescribed_reps r = None
                        \/ PlanRow.prescribed_reps r = Some "") ->
          DayWorkout.block_prescribed b !! e = None
          /\ Js.read (DayWorkout.block_prescribed b !! e) e
             = match Js.Object_prototype e with
               | Some m => Js.Inherited m
               | None => Js.Undefined
               end)
    /\ (forall e s : string,
          DayWorkout.block_prescribed b !! e = Some s ->
          s ≠ "" /\ e ≠ "__proto__"
          /\ exists r, r ∈ plan /\ PlanRow.block_name r = DayWorkout.name b
                       /\ PlanRow.exercise_id r = e
                       /\ PlanRow.prescribed_reps r = Some s).
Proof.
  intros plan exMap bs b Hbs (_ & _ & _ & _ & ->)%(block_of_rows _ _ _ _ Hbs).
  assert (Hfalsy : forall o : option string,
    o = None \/ o = Some "" -> Js.truthy_str o = false)
    by (by intros o [-> | ->]).
  split; [|split].
  - intros before after r s -> Hs Hne Hproto Hafter.
    change (before ++ r :: after) with (before ++ [r] ++ after).
    rewrite app_assoc, overrides_app_keep.
    + rewrite overrides_snoc, Hs. cbn.
      destruct (String.eqb s "") eqn:Heq; [by apply String.eqb_eq in Heq|].
      cbn. rewrite assign_str_lookup. by rewrite decide_True.
    + eapply Forall_impl; [exact Hafter|]. intros r' Hr' He. auto.
  - intros e He.
    assert (Hnone : PerBlock.overrides
                      (PerBlock.block_rows (DayWorkout.name b) plan) !! e
                    = None).
    { apply overrides_lookup_None. destruct He as [-> | He]; [by left|].
      right. apply Forall_forall.
      intros r [Hname Hr]%list_elem_of_filter Hid. auto. }
    split; [done|]. by rewrite Hnone.
  - intros e s (Hne & Hproto & r & [Hname Hr]%list_elem_of_filter & Hid & Hs)
      %overrides_lookup_Some.
    split; [done|]. split; [done|]. by exists r.
Qed.

Lemma block_prescribed_last_override_witness :
  exists bs b,
    DayWorkout.blocks [row_bridge; row_deadbug]
      (MockDb.exercises MockDb.MOCK_DB) = Ok bs
    /\ b ∈ bs
    /\ DayWorkout.block_prescribed b !! "ex_glute_bridge" = Some "8 to 10".
Proof.
  destruct (blocks_plain [row_bridge; row_deadbug]
              (MockDb.exercises MockDb.MOCK_DB)) as [bs Hbs];
    [repeat constructor|].
  assert (Hin : PerBlock.to_block (MockDb.exercises MockDb.MOCK_DB)
                  ("Glute Strength Block",
                   default (DayWorkout.Build_group 0 0 [] ∅)
                     (PerBlock.fold_block [row_bridge; row_deadbug]))
                ∈ bs).
  { apply (blocks_elem _ _ _ _ Hbs). eexists. split; reflexivity. }
  eexists bs, _. split; [exact Hbs|]. split; [exact Hin|].
  refine (proj1 (block_prescribed_last_override _ _ _ _ Hbs Hin)
            [] [row_deadbug] row_bridge "8 to 10" eq_refl eq_refl _ _ _).
  - discriminate.
  - discriminate.
  - constructor; [|constructor]. discriminate.
Defined.

(** X4. The exercises of a derived block are what the catalogue answers,
    where that is truthy, for the exercise ids that the block's rows name,
    each id once and in the place of the first row that names it.  With a
    plain catalogue these are the records it owns under those ids: an id
    that the catalogue does not own is left out. *)
Theorem block_exercises_first_seen :
  forall (plan : list PlanRow.t) (exMap : ExMap.t)
         (bs : list DayWorkout.block) (b : DayWorkout.block),
    DayWorkout.blocks plan exMap = Ok bs ->
    b ∈ bs ->
    let ids := PerBlock.seen_exercises
                 (PerBlock.block_rows (DayWorkout.name b) plan) in
    DayWorkout.block_exercises b
    = filter (λ x, ExMap.truthy x = true) ((λ id, ExMap.get id exMap) <$> ids)
    /\ NoDup ids
    /\ (forall id, id ∈ ids <->
          exists r, r ∈ plan /\ PlanRow.block_name r = DayWorkout.name b
                    /\ PlanRow.exercise_id r = id)
    /\ (plain_ids plan exMap ->
        DayWorkout.block_exercises b
        = ExMap.Entry <$> omap (λ id, ExMap.own exMap !! id) ids
        /\ forall e, ExMap.Entry e ∈ DayWorkout.block_exercises b <->
             exists r, r ∈ plan /\ PlanRow.block_name r = DayWorkout.name b
                       /\ ExMap.own exMap !! PlanRow.exercise_id r = Some e)
    /\ (forall r rows,
          PerBlock.block_rows (DayWorkout.name b) plan = r :: rows ->
          ids = PlanRow.exercise_id r
                :: filter (λ x, x ≠ PlanRow.exercise_id r)
                     (PerBlock.seen_exercises rows)).
Proof.
  intros plan exMap bs b Hbs (_ & _ & _ & Hex & _)%(block_of_rows _ _ _ _ Hbs).
  cbn zeta.
  destruct (seen_exercises_spec
    (PerBlock.block_rows (DayWorkout.name b) plan)) as [Hnd Hin].
  assert (Hids : forall id,
    id ∈ PerBlock.seen_exercises (PerBlock.block_rows (DayWorkout.name b) plan)
    <-> exists r, r ∈ plan /\ PlanRow.block_name r = DayWorkout.name b
                  /\ PlanRow.exercise_id r = id).
  { intros id. rewrite Hin, list_elem_of_fmap. split.
    - intros (r & -> & [Hname Hr]%list_elem_of_filter). by exists r.
    - intros (r & Hr & Hname & <-). exists r. split; [done|].
      by apply list_elem_of_filter. }
  split; [done|]. split; [done|]. split; [done|]. split.
  - intros Hplain.
    assert (Hown : DayWorkout.block_exercises b
      = ExMap.Entry <$> omap (λ id, ExMap.own exMap !! id)
          (PerBlock.seen_exercises
             (PerBlock.block_rows (DayWorkout.name b) plan))).
    { rewrite Hex. apply plain_lookups, Forall_forall.
      intros id (r & Hr & _ & <-)%Hids. by eapply plain_ids_get. }
    split; [done|]. intros e. rewrite Hown, list_elem_of_fmap. split.
    + intros (e' & [= <-] & (id & (r & Hr & Hname & <-)%Hids & He)
                %list_elem_of_omap).
      by exists r.
    + intros (r & Hr & Hname & He). exists e. split; [done|].
      apply list_elem_of_omap. exists (PlanRow.exercise_id r).
      split; [|done]. apply Hids. by exists r.
  - intros r rows ->. apply seen_exercises_cons.
Qed.

Lemma block_exercises_first_seen_witness :
  exists bs b,
    DayWorkout.blocks [row_deadbug; row_bridge]
      (MockDb.exercises MockDb.MOCK_DB) = Ok bs
    /\ b ∈ bs
    /\ DayWorkout.block_exercises b
       = [ExMap.Entry MockDb.ex_banded_deadbug;
          ExMap.Entry MockDb.ex_glute_bridge].
Proof.
  destruct (blocks_plain [row_deadbug; row_bridge]
              (MockDb.exercises MockDb.MOCK_DB)) as [bs Hbs];
    [repeat constructor|].
  assert (Hin : PerBlock.to_block (MockDb.exercises MockDb.MOCK_DB)
                  ("Glute Strength Block",
                   default (DayWorkout.Build_group 0 0 [] ∅)
                     (PerBlock.fold_block [row_deadbug; row_bridge]))
                ∈ bs).
  { apply (blocks_elem _ _ _ _ Hbs). eexists. split; reflexivity. }
  eexists bs, _. split; [exact Hbs|]. split; [exact Hin|].
  etransitivity;
    [exact (proj1 (block_exercises_first_seen _ _ _ _ Hbs Hin))|].
  vm_compute. reflexivity.
Defined.

(** X5. The derivation of the blocks throws a TypeError exactly when some
    row names its block after a member that every object inherits, and
    yields the blocks otherwise.  It yields no block, so that the view shows
    its "No plan rows for this day yet." line once loading is over, exactly
    when the loaded plan is empty, and never more blocks than plan rows. *)
Theorem blocks_empty_iff :
  forall (plan : list PlanRow.t) (exMap : ExMap.t),
    (plain_names plan <-> exists bs, DayWorkout.blocks plan exMap = Ok bs)
    /\ (~ plain_names plan <-> DayWorkout.blocks plan exMap = Err TypeError)
    /\ (DayWorkout.blocks plan exMap = Ok [] <-> plan = [])
    /\ (DayWorkout.render plan exMap = Ok [] <-> plan = [])
    /\ (forall bs, DayWorkout.blocks plan exMap = Ok bs ->
                   (length bs <= length plan)%nat).
Proof.
  intros plan exMap.
  assert (Hblocks : DayWorkout.blocks plan exMap = Ok [] <-> plan = []).
  { split; [|by intros ->].
    intros Hnil. destruct plan as [|r plan]; [done|].
    destruct (blocks_Ok _ _ _ Hnil) as (g & Hg & _).
    assert (Hk : PlanRow.block_name r ∈ DayWorkout.name <$> []).
    { rewrite (blocks_names _ _ _ _ Hnil Hg).
      apply (grouping_keys _ _ _ Hg). exists r.
      split; [apply list_elem_of_here | done]. }
    by apply elem_of_nil in Hk. }
  split; [|split; [|split; [done|split]]].
  - split; [apply blocks_plain|].
    intros [bs (g & Hg & _)%blocks_Ok].
    by destruct (grouping_Ok _ _ Hg) as (? & _).
  - split; [apply blocks_Err|].
    intros Herr Hplain. apply (blocks_plain _ exMap) in Hplain as [bs Hbs].
    congruence.
  - rewrite <- Hblocks. unfold DayWorkout.render.
    destruct (DayWorkout.blocks plan exMap) as [bs|e]; cbn [bind]; [|done].
    split; intros [= Heq]; [|by subst].
    by apply fmap_nil_inv in Heq as ->.
  - intros bs Hbs. destruct (blocks_Ok _ _ _ Hbs) as (g & Hg & _).
    rewrite <- (length_fmap DayWorkout.name), (blocks_names _ _ _ _ Hbs Hg).
    assert (Hsub : g.*1 ⊆ PlanRow.block_name <$> plan).
    { intros k (r & Hr & <-)%(grouping_keys _ _ _ Hg).
      by apply list_elem_of_fmap_2. }
    rewrite <- (length_fmap PlanRow.block_name plan).
    apply submseteq_length, NoDup_submseteq; [|done].
    by destruct (grouping_Ok _ _ Hg) as (_ & _ & ?).
Qed.

Lemma blocks_empty_iff_witness :
  DayWorkout.blocks [row_constructor] (MockDb.exercises MockDb.MOCK_DB)
  = Err TypeError
  /\ exists bs,
       DayWorkout.blocks two_block_plan (MockDb.exercises MockDb.MOCK_DB)
       = Ok bs
       /\ (length bs <= length two_block_plan)%nat.
Proof.
  split.
  - apply (proj1 (proj1 (proj2 (blocks_empty_iff [row_constructor]
             (MockDb.exercises MockDb.MOCK_DB))))).
    intros Hplain. by inversion Hplain.
  - destruct (proj1 (proj1 (blocks_empty_iff two_block_plan
                (MockDb.exercises MockDb.MOCK_DB)))) as [bs Hbs];
      [repeat constructor|].
    exists bs. split; [exact Hbs|].
    exact (proj2 (proj2 (proj2 (proj2 (blocks_empty_iff two_block_plan
             (MockDb.exercises MockDb.MOCK_DB))))) bs Hbs).
Defined.

(** ** From a rendered card to a saved set *)

(** X6. When the catalogue is plain and every record of it carries the id
    it is filed under, every card rendered for a plan shows a record of the
    catalogue, and its save action finds a plan row: with the mock adapter
    it appends exactly one log, carrying the record's id and the card's set
    number, today's date and the day and block of a plan row of that
    exercise, and the status line reads "Saved". *)
Theorem rendered_card_is_savable :
  forall (plan : list PlanRow.t) (exMap : ExMap.t)
         (rendered : list (string * list DayWorkout.card))
         (title : string) (cards : list DayWorkout.card) (c : DayWorkout.card)
         (today status : string) (db : MockDb.t) (data : DayWorkout.entry),
    (forall id e, ExMap.own exMap !! id = Some e -> Exercise.id e = Some id) ->
    plain_ids plan exMap ->
    DayWorkout.render plan exMap = Ok rendered ->
    (title, cards) ∈ rendered ->
    c ∈ cards ->
    exists id e log r,
      DayWorkout.exercise c = ExMap.Entry e
      /\ Exercise.id e = Some id
      /\ DayWorkout.onSave MockDb.saveStrengthLog today plan status db id
           (DayWorkout.setNumber c) data
         = (MockDb.mk (MockDb.exercises db) (MockDb.plan db) (MockDb.days db)
              (MockDb.strengthLogs db ++ [log]) (MockDb.cardioPlan db)
              (MockDb.cardioLogs db), "Saved")
      /\ StrengthLog.exercise_id log = id
      /\ StrengthLog.set_number log = DayWorkout.setNumber c
      /\ StrengthLog.date_iso log = today
      /\ r ∈ plan /\ PlanRow.exercise_id r = id
      /\ StrengthLog.day_id log = PlanRow.day_id r
      /\ StrengthLog.block_name log = PlanRow.block_name r.
Proof.
  intros plan exMap rendered title cards c today status db data
    Hfiled Hplain (bs & Hbs & ->)%render_Ok Hrender Hc.
  apply list_elem_of_fmap in Hrender as (b & Hblock & Hb).
  injection Hblock as -> ->.
  apply list_elem_of_bind in Hc as (n & Hc & _).
  apply list_elem_of_bind in Hc as (ex & Hc & Hex).
  apply list_elem_of_singleton in Hc as ->.
  cbn [DayWorkout.ExerciseCard DayWorkout.exercise DayWorkout.setNumber].
  apply (block_of_rows _ _ _ _ Hbs) in Hb as (_ & _ & _ & Hexs & _).
  rewrite Hexs in Hex. apply list_elem_of_filter in Hex as [Htruthy Hex].
  apply list_elem_of_fmap in Hex as (id & -> & Hid).
  apply seen_exercises_spec, list_elem_of_fmap in Hid as (r0 & -> & Hr0).
  apply list_elem_of_filter in Hr0 as [_ Hr0].
  rewrite (plain_ids_get _ _ _ Hplain Hr0) in Htruthy |- *.
  destruct (ExMap.own exMap !! PlanRow.exercise_id r0) as [e|] eqn:Hown;
    [|done].
  exists (PlanRow.exercise_id r0), e. unfold DayWorkout.onSave.
  destruct (find (λ p, String.eqb (PlanRow.exercise_id p)
                         (PlanRow.exercise_id r0)) plan) as [r|] eqn:Hfind.
  - apply find_some in Hfind as [Hr Heq]. apply String.eqb_eq in Heq.
    eexists _, r.
    split; [done|]. split; [by apply Hfiled|]. split; [reflexivity|].
    cbn. repeat split; try done. by apply list_elem_of_In.
  - eapply find_none in Hfind; [|by apply list_elem_of_In].
    cbn in Hfind. by rewrite String.eqb_refl in Hfind.
Qed.

Lemma rendered_card_is_savable_witness :
  exists rendered title cards c,
    DayWorkout.render [row_plain] (MockDb.exercises MockDb.MOCK_DB)
    = Ok rendered
    /\ (title, cards) ∈ rendered /\ c ∈ cards
    /\ exists id e log r,
         DayWorkout.exercise c = ExMap.Entry e
         /\ Exercise.id e = Some id
         /\ DayWorkout.onSave MockDb.saveStrengthLog "2025-08-20"
              [row_plain] "" MockDb.MOCK_DB id (DayWorkout.setNumber c)
              {| DayWorkout.reps_done := Some "10"; DayWorkout.load := None;
                 DayWorkout.notes := None |}
            = (MockDb.mk (MockDb.exercises MockDb.MOCK_DB)
                 (MockDb.plan MockDb.MOCK_DB) (MockDb.days MockDb.MOCK_DB)
                 (MockDb.strengthLogs MockDb.MOCK_DB ++ [log])
                 (MockDb.cardioPlan MockDb.MOCK_DB)
                 (MockDb.cardioLogs MockDb.MOCK_DB), "Saved")
         /\ StrengthLog.exercise_id log = id
         /\ StrengthLog.set_number log = DayWorkout.setNumber c
         /\ StrengthLog.date_iso log = "2025-08-20"
         /\ r ∈ [row_plain] /\ PlanRow.exercise_id r = id
         /\ StrengthLog.day_id log = PlanRow.day_id r
         /\ StrengthLog.block_name log = PlanRow.block_name r.
Proof.
  assert (Hrender : DayWorkout.render [row_plain]
                      (MockDb.exercises MockDb.MOCK_DB)
                    = Ok [DayWorkout.Block "Glute Strength Block" 1
                            [ExMap.Entry MockDb.ex_glute_bridge] ∅]).
  { unfold DayWorkout.render. rewrite blocks_single by reflexivity.
    vm_compute. reflexivity. }
  eexists _, "Glute Strength Block", _, _.
  split; [exact Hrender|].
  assert (Hblock : DayWorkout.Block "Glute Strength Block" 1
                     [ExMap.Entry MockDb.ex_glute_bridge] ∅
                   ∈ [DayWorkout.Block "Glute Strength Block" 1
                        [ExMap.Entry MockDb.ex_glute_bridge] ∅])
    by apply list_elem_of_here.
  split; [exact Hblock|].
  assert (Hcard : DayWorkout.ExerciseCard "ex_glute_bridge_1"
                    (ExMap.Entry MockDb.ex_glute_bridge) 1 Js.Undefined
                  ∈ (DayWorkout.Block "Glute Strength Block" 1
                       [ExMap.Entry MockDb.ex_glute_bridge] ∅).2).
  { vm_compute. apply list_elem_of_here. }
  split; [exact Hcard|].
  refine (rendered_card_is_savable [row_plain]
    (MockDb.exercises MockDb.MOCK_DB) _ "Glute Strength Block" _ _
    "2025-08-20" "" MockDb.MOCK_DB
    {| DayWorkout.reps_done := Some "10"; DayWorkout.load := None;
       DayWorkout.notes := None |} _ _ Hrender Hblock Hcard).
  - intros id e Hlook.
    destruct (decide (id = "ex_banded_deadbug")) as [-> | Hne1].
    { vm_compute in Hlook. by injection Hlook as <-. }
    destruct (decide (id = "ex_glute_bridge")) as [-> | Hne2].
    { vm_compute in Hlook. by injection Hlook as <-. }
    unfold MockDb.MOCK_DB, ExMap.literal in Hlook.
    cbn [MockDb.exercises ExMap.own] in Hlook.
    by rewrite !lookup_insert_ne, lookup_empty in Hlook.
  - split; [reflexivity|]. repeat constructor.
Defined.

(** ** The mock adapters *)

(** X7. In the second build the mock adapter files every exercise that has
    no id under the one key "undefined": of two such exercises added in a
    row only the second remains, nothing else in the catalogue changes, and
    both calls return no identifier.  In src/App.tsx two such exercises are
    both kept, each as a copy that carries its generated identifier and is
    filed under it, whenever the two identifiers differ; nothing else in the
    catalogue changes. *)
Theorem mock_addExercise_without_id :
  forall (ex1 ex2 : Exercise.t) (db : MockDb.t),
    Exercise.id ex1 = None -> Exercise.id ex2 = None ->
    (let after1 := Part000.MockAdapter.addExercise ex1 db in
     let after2 := Part000.MockAdapter.addExercise ex2 after1.2 in
     after1.1 = (true, None) /\ after2.1 = (true, None)
     /\ MockDb.exercises after2.2
        = ExMap.mk (<["undefined" := ex2]> (ExMap.own (MockDb.exercises db)))
            (ExMap.proto (MockDb.exercises db)))
    /\ (forall rnd1 rnd2 : string,
          Js.slice 2 10 rnd1 ≠ Js.slice 2 10 rnd2 ->
          let after1 := AppTsx.MockAdapter.addExercise rnd1 ex1 db in
          let after2 := AppTsx.MockAdapter.addExercise rnd2 ex2 after1.2 in
          let id1 := "ex_" +:+ Js.slice 2 10 rnd1 in
          let id2 := "ex_" +:+ Js.slice 2 10 rnd2 in
          after1.1 = (true, id1) /\ after2.1 = (true, id2) /\ id1 ≠ id2
          /\ ExMap.own (MockDb.exercises after2.2) !! id1
             = Some (Exercise.with_id id1 ex1)
          /\ ExMap.own (MockDb.exercises after2.2) !! id2
             = Some (Exercise.with_id id2 ex2)
          /\ (forall k, k ≠ id1 -> k ≠ id2 ->
                ExMap.own (MockDb.exercises after2.2) !! k
                = ExMap.own (MockDb.exercises db) !! k)
          /\ ExMap.proto (MockDb.exercises after2.2)
             = ExMap.proto (MockDb.exercises db)).
Proof.
  intros ex1 ex2 db Hid1 Hid2. split.
  - cbn zeta. unfold Part000.MockAdapter.addExercise.
    cbn [fst snd MockDb.with_exercise MockDb.exercises].
    rewrite Hid1, Hid2. cbn [Js.prop_key default].
    split; [done|]. split; [done|].
    rewrite !ExMap_set_own by discriminate. cbn [ExMap.own ExMap.proto].
    by rewrite insert_insert_eq.
  - intros rnd1 rnd2 Hrnd. cbn zeta. unfold AppTsx.MockAdapter.addExercise.
    cbn [fst snd MockDb.with_exercise MockDb.exercises].
    rewrite Hid1, Hid2. cbn [Js.or_lit].
    assert (Hne : "ex_" +:+ Js.slice 2 10 rnd1 ≠ "ex_" +:+ Js.slice 2 10 rnd2).
    { intros Heq. apply Hrnd. by injection Heq. }
    rewrite !ExMap_set_own by apply generated_id_own.
    cbn [ExMap.own ExMap.proto].
    split; [done|]. split; [done|]. split; [done|]. split; [|split; [|split]].
    + by rewrite lookup_insert_ne, lookup_insert_eq.
    + by rewrite lookup_insert_eq.
    + intros k Hk1 Hk2. by rewrite !lookup_insert_ne.
    + done.
Qed.

Lemma mock_addExercise_without_id_witness :
  MockDb.exercises
    (Part000.MockAdapter.addExercise (sample_exercise None)
       (Part000.MockAdapter.addExercise
          (Exercise.mk None "Plank" "mat" None core None None None)
          MockDb.MOCK_DB).2).2
  = ExMap.mk (<["undefined" := sample_exercise None]>
                (ExMap.own (MockDb.exercises MockDb.MOCK_DB)))
      (ExMap.proto (MockDb.exercises MockDb.MOCK_DB)).
Proof.
  exact (proj2 (proj2 (proj1 (mock_addExercise_without_id
    (Exercise.mk None "Plank" "mat" None core None None None)
    (sample_exercise None) MockDb.MOCK_DB eq_refl eq_refl)))).
Defined.

(** ** Saving a cardio log *)

(** X8. Saving a cardio log through the mock adapter always succeeds: the
    status line reads "Saved", the plan rows shown are the stored cardio
    plan, and the list of logs, shown most recent first, starts with the log
    just saved, followed by the earlier logs as they were listed before;
    nothing else in the database changes. *)
Theorem cardio_save_mock_newest_first :
  forall (newLog : CardioLog.t)
         (v : CardioView.view (list CardioPlanRow.t) (list CardioLog.t))
         (db : MockDb.t),
    let after := CardioView.save_mock newLog v db in
    CardioView.status after.1 = "Saved"
    /\ CardioView.rows after.1 = MockDb.cardioPlan db
    /\ CardioView.recent (CardioView.logs after.1)
       = newLog :: CardioView.recent (MockDb.cardioLogs db)
    /\ after.2 = MockDb.mk (MockDb.exercises db) (MockDb.plan db)
                   (MockDb.days db) (MockDb.strengthLogs db)
                   (MockDb.cardioPlan db) (MockDb.cardioLogs db ++ [newLog])
    /\ MockDb.listCardio after.2 = (CardioView.rows after.1,
                                    CardioView.logs after.1).
Proof.
  intros newLog v db. cbv zeta.
  unfold CardioView.save_mock, CardioView.save, MockDb.saveCardioLog,
    MockDb.listCardio, CardioView.recent.
  cbn [fst snd CardioView.rows CardioView.logs CardioView.status
       MockDb.cardioLogs MockDb.cardioPlan].
  rewrite reverse_snoc. repeat split.
Qed.

Section CardioSaveSheets.

Context `{Runtime}.


End CardioSaveSheets.


(** ** Adding an alternative exercise *)

Section AiFlowAnyAdapter.

Context {St : Type}.
Variable trim : string → string.
Variable ai_exercise : string → result Exercise.t.
Variable addExercise : Exercise.t → St → result (bool * string) * St.
Variable addPlanRow : PlanRow.t → St → result bool * St.
Variable getPlanForDay : string → St → result (list PlanRow.t * ExMap.t).

(** X10. Adding an alternative exercise does nothing without a selected day
    or with a blank query.  Otherwise the busy flag is off when the flow has
    settled, whichever step failed.  A failure leaves the shown plan, the
    catalogue and the query as they were and undoes no write already made:
    the adapter is left as the failing step left it, after the lookup
    untouched, after a failed addExercise as that call left it, after a
    failed addPlanRow or a failed reload with the exercise stored, and in
    the last case with the plan row added as well.  When every step
    succeeds the view shows the reloaded plan and catalogue and the query
    is cleared. *)
Theorem addAlternativeExercise_settles :
  forall (days : list Day.t) (selectedDay : string) (v : AiFlow.view)
         (st : St),
    let after :=
      AiFlow.addAlternativeExercise trim ai_exercise addExercise addPlanRow
        getPlanForDay days selectedDay v st in
    (selectedDay = "" \/ trim (AiFlow.aiQuery v) = "" -> after = (v, st))
    /\ (selectedDay ≠ "" -> trim (AiFlow.aiQuery v) ≠ "" ->
        AiFlow.aiBusy after.1 = false
        /\ (forall e, ai_exercise (AiFlow.aiQuery v) = Err e ->
                      after = (AiFlow.busy_off v, st))
        /\ (forall ex e st1,
              ai_exercise (AiFlow.aiQuery v) = Ok ex ->
              addExercise ex st = (Err e, st1) ->
              after = (AiFlow.busy_off v, st1))
        /\ (forall ex res st1 e st2,
              ai_exercise (AiFlow.aiQuery v) = Ok ex ->
              addExercise ex st = (Ok res, st1) ->
              addPlanRow (AiFlow.adhoc_row days selectedDay res.2 ex) st1
                = (Err e, st2) ->
              after = (AiFlow.busy_off v, st2))
        /\ (forall ex res st1 ok st2 e,
              ai_exercise (AiFlow.aiQuery v) = Ok ex ->
              addExercise ex st = (Ok res, st1) ->
              addPlanRow (AiFlow.adhoc_row days selectedDay res.2 ex) st1
                = (Ok ok, st2) ->
              getPlanForDay selectedDay st2 = Err e ->
              after = (AiFlow.busy_off v, st2))
        /\ (forall ex res st1 ok st2 plan exMap,
              ai_exercise (AiFlow.aiQuery v) = Ok ex ->
              addExercise ex st = (Ok res, st1) ->
              addPlanRow (AiFlow.adhoc_row days selectedDay res.2 ex) st1
                = (Ok ok, st2) ->
              getPlanForDay selectedDay st2 = Ok (plan, exMap) ->
              after = (AiFlow.mk plan exMap "" false, st2))).
Proof.
  intros days selectedDay v st. cbv zeta.
  unfold AiFlow.addAlternativeExercise. split.
  - intros [-> | ->]; [done|]. by rewrite orb_true_r.
  - intros Hday%String.eqb_neq Hquery%String.eqb_neq.
    rewrite Hday, Hquery. cbn [orb].
    split.
    { destruct (ai_exercise (AiFlow.aiQuery v)) as [ex|e1]; [|done].
      destruct (addExercise ex st) as [[res|e2] st1]; [|done].
      destruct (addPlanRow _ st1) as [[ok|e3] st2]; [|done].
      by destruct (getPlanForDay selectedDay st2) as [[p m]|e4]. }
    split; [by intros e ->|].
    split; [by intros ex e st1 -> ->|].
    split; [by intros ex res st1 e st2 -> -> ->|].
    split; [by intros ex res st1 ok st2 e -> -> -> ->|].
    by intros ex res st1 ok st2 plan exMap -> -> -> ->.
Qed.

End AiFlowAnyAdapter.

Lemma addAlternativeExercise_settles_witness :
  AiFlow.addAlternativeExercise (λ s, s) (λ _, Ok (sample_exercise None))
    (λ ex (st : nat), (Ok (true, "ex_1"), S st))
    (λ row st, (Err TypeError, st)) (λ day st, Ok ([], ExMap.literal ∅))
    [] "Day 1" (AiFlow.mk [] (ExMap.literal ∅) "hip hinge" true) 0%nat
  = (AiFlow.mk [] (ExMap.literal ∅) "hip hinge" false, 1%nat).
Proof.
  refine (proj1 (proj2 (proj2 (proj2 (proj2
    (addAlternativeExercise_settles (λ s, s) (λ _, Ok (sample_exercise None))
       (λ ex (st : nat), (Ok (true, "ex_1"), S st))
       (λ row st, (Err TypeError, st)) (λ day st, Ok ([], ExMap.literal ∅))
       [] "Day 1" (AiFlow.mk [] (ExMap.literal ∅) "hip hinge" true) 0%nat)
    _ _))))
    (sample_exercise None) (true, "ex_1") 1%nat TypeError 1%nat
    eq_refl eq_refl eq_refl); discriminate.
Defined.

(** X11. Over the mock adapter of src/App.tsx the flow, once the lookup has
    answered, always completes: the query is cleared, the catalogue shown
    answers the identifier assigned to the exercise with the copy of the
    exercise that carries that identifier, and the plan shown holds the new
    row of block "Ad hoc alternatives".  When none of the rows stored for
    the day names its block after a member that every object inherits, the
    blocks derived from the plan shown include that block, with that copy
    of the exercise in it and a set count of at least 1. *)
Theorem addAlternativeExercise_mock_shows_exercise :
  forall (trim : string → string) (ai_exercise : string → result Exercise.t)
         (rnd : string) (days : list Day.t) (selectedDay : string)
         (v : AiFlow.view) (db : MockDb.t) (ex : Exercise.t),
    selectedDay ≠ "" -> trim (AiFlow.aiQuery v) ≠ "" ->
    ai_exercise (AiFlow.aiQuery v) = Ok ex ->
    let id := Js.or_lit (Exercise.id ex) ("ex_" +:+ Js.slice 2 10 rnd) in
    let row := AiFlow.adhoc_row days selectedDay id ex in
    let stored := Exercise.with_id id ex in
    let after :=
      AiFlow.with_mock_AppTsx trim ai_exercise rnd days selectedDay v db in
    AiFlow.aiBusy after.1 = false /\ AiFlow.aiQuery after.1 = ""
    /\ MockDb.plan after.2 = MockDb.plan db ++ [row]
    /\ MockDb.exercises after.2 = ExMap.set id stored (MockDb.exercises db)
    /\ AiFlow.exMap after.1 = MockDb.exercises after.2
    /\ ExMap.get id (AiFlow.exMap after.1) = ExMap.Entry stored
    /\ row ∈ AiFlow.plan after.1
    /\ (plain_names
          (filter (λ p, PlanRow.day_id p = selectedDay) (MockDb.plan db)) ->
        exists bs b,
          DayWorkout.blocks (AiFlow.plan after.1) (AiFlow.exMap after.1)
          = Ok bs
          /\ b ∈ bs
          /\ DayWorkout.name b = "Ad hoc alternatives"
          /\ ExMap.Entry stored ∈ DayWorkout.block_exercises b
          /\ 1 <= DayWorkout.setCount b).
Proof.
  intros trim ai_exercise rnd days selectedDay v db ex
    Hday%String.eqb_neq Hquery%String.eqb_neq Hai. cbv zeta.
  unfold AiFlow.with_mock_AppTsx, AiFlow.addAlternativeExercise.
  rewrite Hday, Hquery, Hai. cbn [orb].
  set (id := Js.or_lit (Exercise.id ex) ("ex_" +:+ Js.slice 2 10 rnd)).
  set (row := AiFlow.adhoc_row days selectedDay id ex).
  set (stored := Exercise.with_id id ex).
  unfold AppTsx.MockAdapter.addExercise. fold id. fold stored.
  cbn [fst snd MockDb.addPlanRow AiFlow.aiBusy AiFlow.aiQuery AiFlow.plan
       AiFlow.exMap MockDb.plan MockDb.with_exercise MockDb.exercises
       AppTsx.MockAdapter.getPlanForDay].
  fold row.
  set (plan' := Js.sort _ _).
  set (exMap' := ExMap.set id stored (MockDb.exercises db)).
  assert (Hrow : row ∈ plan').
  { unfold plan'. rewrite sort_Permutation. apply list_elem_of_filter.
    split; [done|]. apply elem_of_app. right. apply list_elem_of_here. }
  split; [done|]. split; [done|]. split; [done|]. split; [done|].
  split; [done|]. split; [apply ExMap_get_set|]. split; [done|].
  intros Hplain.
  assert (Hplain' : plain_names plan').
  { unfold plain_names, plan' in *. rewrite sort_Permutation, filter_app.
    apply Forall_app. split; [done|].
    rewrite filter_cons, filter_nil. rewrite decide_True by done.
    by apply Forall_singleton. }
  destruct (blocks_plain plan' exMap' Hplain') as [bs Hbs].
  assert (Hrows : row ∈ PerBlock.block_rows "Ad hoc alternatives" plan')
    by (by apply list_elem_of_filter).
  destruct (PerBlock.fold_block
    (PerBlock.block_rows "Ad hoc alternatives" plan')) as [g|] eqn:Hg.
  2:{ destruct (PerBlock.block_rows "Ad hoc alternatives" plan');
        [by apply elem_of_nil in Hrows | done]. }
  exists bs, (PerBlock.to_block exMap' ("Ad hoc alternatives", g)).
  split; [done|].
  split; [apply (blocks_elem _ _ _ _ Hbs); by exists g|]. split; [done|].
  apply fold_block_Some in Hg as (_ & Hsets & Hseen). cbn.
  rewrite Hsets, Hseen. split.
  - apply list_elem_of_filter. split; [done|].
    apply list_elem_of_fmap. exists id.
    split; [symmetry; apply ExMap_get_set|].
    apply seen_exercises_spec. by apply (list_elem_of_fmap_2' _ _ row).
  - destruct (max_set_spec
      (PerBlock.block_rows "Ad hoc alternatives" plan')) as (_ & Hub & _).
    exact (Hub row Hrows).
Qed.

Lemma addAlternativeExercise_mock_shows_exercise_witness :
  AiFlow.adhoc_row (MockDb.days MockDb.MOCK_DB) "Day 1" "ex_4fzyo82m"
    (sample_exercise None)
  ∈ AiFlow.plan
      (AiFlow.with_mock_AppTsx (λ s, s) (λ _, Ok (sample_exercise None))
         "0.4fzyo82mvyr" (MockDb.days MockDb.MOCK_DB) "Day 1"
         (AiFlow.mk [] (ExMap.literal ∅) "hip thrust" false) MockDb.MOCK_DB).1.
Proof.
  refine (proj1 (proj2 (proj2 (proj2 (proj2 (proj2 (proj2
    (addAlternativeExercise_mock_shows_exercise (λ s, s)
       (λ _, Ok (sample_exercise None)) "0.4fzyo82mvyr"
       (MockDb.days MockDb.MOCK_DB) "Day 1"
       (AiFlow.mk [] (ExMap.literal ∅) "hip thrust" false) MockDb.MOCK_DB
       (sample_exercise None) _ _ eq_refl)))))))); discriminate.
Defined.

(** ** The Sheets adapters: status, network failures and field mapping *)

Lemma mapM_Ok {A B} (f : A → result B) (g : A → B) (l : list A) :
  Forall (λ x, f x = Ok (g x)) l -> mapM f l = Ok (g <$> l).
Proof.
  induction 1 as [|x l Hx _ IH]; [done|]. cbn. by rewrite Hx, IH.
Qed.

Lemma mapM_Err {A B} (f : A → result B) (e : error) (l : list A) :
  (forall x e', f x = Err e' -> e' = e) ->
  (exists x, x ∈ l /\ f x = Err e) -> mapM f l = Err e.
Proof.
  intros Hf (x & Hx & Hfx).
  induction l as [|y l IH]; [by apply elem_of_nil in Hx|]. cbn.
  destruct (f y) as [b|e'] eqn:Hy; [|by rewrite (Hf _ _ Hy)].
  apply elem_of_cons in Hx as [-> | Hx]; [congruence|].
  cbn. by rewrite IH.
Qed.

Lemma prop_not_null (k : string) (d : Js.json) :
  d ≠ Js.JNull -> prop k d = Ok (json_field k d).
Proof. by destruct d. Qed.

Section SheetsStatus.

Context `{Runtime}.

(** X12. The Sheets adapter of the second build never looks at the status of
    a response: whenever the body parses, each of the four writes hands back
    the parsed body, a failure status included. *)
Theorem Part000_writes_ignore_status :
  forall (r : Http.response) (body : Js.json) (log : StrengthLog.t)
         (clog : CardioLog.t) (ex : Exercise.t) (row : PlanRow.t),
    replies r ->
    Http.ok r = false ->
    JSON_parse (Http.text r) = Some body ->
    Part000.GoogleSheetsAdapter.saveStrengthLog log = Ok body
    /\ Part000.GoogleSheetsAdapter.saveCardioLog clog = Ok body
    /\ Part000.GoogleSheetsAdapter.addExercise ex = Ok body
    /\ Part000.GoogleSheetsAdapter.addPlanRow row = Ok body.
Proof.
  intros r body log clog ex row Hr _ Hparse.
  unfold Part000.GoogleSheetsAdapter.saveStrengthLog,
    Part000.GoogleSheetsAdapter.saveCardioLog,
    Part000.GoogleSheetsAdapter.addExercise,
    Part000.GoogleSheetsAdapter.addPlanRow.
  by rewrite !(Part000_postJSON_reply r), Hparse.
Qed.

(** X13. In src/App.tsx every operation of the Sheets adapter rejects a
    response with a failure status with the error "<action> failed", writes
    as well as reads, without reading the body. *)
Theorem AppTsx_failure_status_rejected :
  forall (r : Http.response) (day : string) (log : StrengthLog.t)
         (clog : CardioLog.t) (ex : Exercise.t) (row : PlanRow.t),
    replies r ->
    Http.ok r = false ->
    AppTsx.GoogleSheetsAdapter.listDays = Err (Error "listDays failed")
    /\ AppTsx.GoogleSheetsAdapter.getPlanForDay day
       = Err (Error "getPlanForDay failed")
    /\ AppTsx.GoogleSheetsAdapter.listCardio = Err (Error "listCardio failed")
    /\ AppTsx.GoogleSheetsAdapter.saveStrengthLog log
       = Err (Error "saveStrengthLog failed")
    /\ AppTsx.GoogleSheetsAdapter.saveCardioLog clog
       = Err (Error "saveCardioLog failed")
    /\ AppTsx.GoogleSheetsAdapter.addExercise ex
       = Err (Error "addExercise failed")
    /\ AppTsx.GoogleSheetsAdapter.addPlanRow row
       = Err (Error "addPlanRow failed").
Proof.
  intros r day log clog ex row Hr Hok.
  unfold AppTsx.GoogleSheetsAdapter.listDays,
    AppTsx.GoogleSheetsAdapter.getPlanForDay,
    AppTsx.GoogleSheetsAdapter.listCardio,
    AppTsx.GoogleSheetsAdapter.saveStrengthLog,
    AppTsx.GoogleSheetsAdapter.saveCardioLog,
    AppTsx.GoogleSheetsAdapter.addExercise,
    AppTsx.GoogleSheetsAdapter.addPlanRow.
  by rewrite !(AppTsx_getJSON_reply r), !(AppTsx_postJSON_reply r), Hok.
Qed.

(** X14. A network failure is passed on unchanged: when fetch rejects with
    an error, every operation of both Sheets adapters rejects with that same
    error. *)
Theorem fetch_rejection_propagates :
  forall (e : error) (day : string) (dateRange : option (string * string))
         (log : StrengthLog.t) (clog : CardioLog.t) (ex : Exercise.t)
         (row : PlanRow.t),
    (forall req, fetch req = Err e) ->
    (AppTsx.GoogleSheetsAdapter.listDays = Err e
     /\ AppTsx.GoogleSheetsAdapter.getPlanForDay day = Err e
     /\ AppTsx.GoogleSheetsAdapter.listCardio = Err e
     /\ AppTsx.GoogleSheetsAdapter.saveStrengthLog log = Err e
     /\ AppTsx.GoogleSheetsAdapter.saveCardioLog clog = Err e
     /\ AppTsx.GoogleSheetsAdapter.addExercise ex = Err e
     /\ AppTsx.GoogleSheetsAdapter.addPlanRow row = Err e)
    /\ (Part000.GoogleSheetsAdapter.listDays = Err e
        /\ Part000.GoogleSheetsAdapter.getPlanForDay day = Err e
        /\ Part000.GoogleSheetsAdapter.listCardio dateRange = Err e
        /\ Part000.GoogleSheetsAdapter.saveStrengthLog log = Err e
        /\ Part000.GoogleSheetsAdapter.saveCardioLog clog = Err e
        /\ Part000.GoogleSheetsAdapter.addExercise ex = Err e
        /\ Part000.GoogleSheetsAdapter.addPlanRow row = Err e).
Proof.
  intros e day dateRange log clog ex row Hfetch.
  assert (Hget1 : forall a p, AppTsx.getJSON a p = Err e).
  { intros a p. unfold AppTsx.getJSON. cbn zeta. by rewrite Hfetch. }
  assert (Hpost1 : forall a p, AppTsx.postJSON a p = Err e).
  { intros a p. unfold AppTsx.postJSON. by rewrite Hfetch. }
  assert (Hget2 : forall a p, Part000.getJSON a p = Err e).
  { intros a p. unfold Part000.getJSON. cbn zeta. by rewrite Hfetch. }
  assert (Hpost2 : forall a p, Part000.postJSON a p = Err e).
  { intros a p. unfold Part000.postJSON. cbn zeta. by rewrite Hfetch. }
  unfold AppTsx.GoogleSheetsAdapter.listDays,
    AppTsx.GoogleSheetsAdapter.getPlanForDay,
    AppTsx.GoogleSheetsAdapter.listCardio,
    AppTsx.GoogleSheetsAdapter.saveStrengthLog,
    AppTsx.GoogleSheetsAdapter.saveCardioLog,
    AppTsx.GoogleSheetsAdapter.addExercise,
    AppTsx.GoogleSheetsAdapter.addPlanRow,
    Part000.GoogleSheetsAdapter.listDays,
    Part000.GoogleSheetsAdapter.getPlanForDay,
    Part000.GoogleSheetsAdapter.listCardio,
    Part000.GoogleSheetsAdapter.saveStrengthLog,
    Part000.GoogleSheetsAdapter.saveCardioLog,
    Part000.GoogleSheetsAdapter.addExercise,
    Part000.GoogleSheetsAdapter.addPlanRow.
  cbn zeta. by rewrite !Hget1, !Hpost1, !Hget2, !Hpost2.
Qed.

(** X15. For a response whose body is an object with an array under days,
    listDays of both builds yields one day per element, in the same order,
    with String(day_id) as id and day_name as it came, provided no element
    is null; a null element, or a body without an array under days, makes
    it reject with a TypeError. *)
Theorem listDays_maps_days :
  forall (r : Http.response) (fields : list (string * Js.json)),
    replies r ->
    Http.ok r = true ->
    JSON_parse (Http.text r) = Some (Js.JObj fields) ->
    (forall items,
       Js.member "days" fields = Some (Js.JArr items) ->
       Forall (λ d, d ≠ Js.JNull) items ->
       let days := (λ d, (String_of (json_field "day_id" d),
                          json_field "day_name" d)) <$> items in
       AppTsx.GoogleSheetsAdapter.listDays = Ok days
       /\ Part000.GoogleSheetsAdapter.listDays = Ok days)
    /\ (forall items,
          Js.member "days" fields = Some (Js.JArr items) ->
          Js.JNull ∈ items ->
          AppTsx.GoogleSheetsAdapter.listDays = Err TypeError
          /\ Part000.GoogleSheetsAdapter.listDays = Err TypeError)
    /\ ((forall items, Js.member "days" fields ≠ Some (Js.JArr items)) ->
        AppTsx.GoogleSheetsAdapter.listDays = Err TypeError
        /\ Part000.GoogleSheetsAdapter.listDays = Err TypeError).
Proof.
  intros r fields Hr Hok Hparse.
  unfold AppTsx.GoogleSheetsAdapter.listDays,
    Part000.GoogleSheetsAdapter.listDays.
  rewrite (AppTsx_getJSON_reply r), (Part000_getJSON_reply r), Hok, Hparse
    by done.
  cbn [bind prop].
  split; [|split].
  - intros items -> Hitems. cbn zeta.
    rewrite (mapM_Ok _ (λ d, (String_of (json_field "day_id" d),
                              json_field "day_name" d))); [done|].
    eapply Forall_impl; [exact Hitems|]. intros d Hd. cbn beta.
    by rewrite !prop_not_null.
  - intros items -> Hnull.
    rewrite (mapM_Err _ TypeError); [done| |by exists Js.JNull].
    intros d e'. destruct d; cbn; congruence.
  - intros Hdays. destruct (Js.member "days" fields) as [[]|]; try done.
    by destruct (Hdays items).
Qed.

(** X16. For a response whose body is an object, getPlanForDay of the second
    build never hands back a missing plan or catalogue: a member that is
    absent (or falsy) is replaced by the empty list, respectively the empty
    object.  getPlanForDay of src/App.tsx hands both members back as they
    came, absent ones included. *)
Theorem getPlanForDay_defaults :
  forall (r : Http.response) (fields : list (string * Js.json))
         (day : string),
    replies r ->
    JSON_parse (Http.text r) = Some (Js.JObj fields) ->
    (exists plan exercises,
       Part000.GoogleSheetsAdapter.getPlanForDay day = Ok (plan, exercises)
       /\ Js.truthy plan = true /\ Js.truthy exercises = true
       /\ (Js.truthy (Js.member "plan" fields) = true ->
           plan = Js.member "plan" fields)
       /\ (Js.truthy (Js.member "plan" fields) = false ->
           plan = Some (Js.JArr []))
       /\ (Js.truthy (Js.member "exercises" fields) = true ->
           exercises = Js.member "exercises" fields)
       /\ (Js.truthy (Js.member "exercises" fields) = false ->
           exercises = Some (Js.JObj [])))
    /\ (Http.ok r = true ->
        AppTsx.GoogleSheetsAdapter.getPlanForDay day
        = Ok (Js.member "plan" fields, Js.member "exercises" fields)).
Proof.
  intros r fields day Hr Hparse. split.
  - unfold Part000.GoogleSheetsAdapter.getPlanForDay.
    rewrite (Part000_getJSON_reply r), Hparse by done. cbn [bind prop].
    eexists _, _. split; [reflexivity|]. unfold Js.or_else.
    destruct (Js.truthy (Js.member "plan" fields)) eqn:Hp,
      (Js.truthy (Js.member "exercises" fields)) eqn:He;
      repeat split; try done.
  - intros Hok. unfold AppTsx.GoogleSheetsAdapter.getPlanForDay.
    by rewrite (AppTsx_getJSON_reply r), Hok, Hparse.
Qed.

End SheetsStatus.

Lemma Part000_writes_ignore_status_witness :
  @Part000.GoogleSheetsAdapter.saveStrengthLog
    (sample_runtime {| Http.ok := false; Http.text := body_ok_only |})
    sample_log
  = Ok (Js.JObj [("ok", Js.JBool true)]).
Proof.
  exact (proj1 (@Part000_writes_ignore_status
    (sample_runtime {| Http.ok := false; Http.text := body_ok_only |})
    {| Http.ok := false; Http.text := body_ok_only |}
    (Js.JObj [("ok", Js.JBool true)]) sample_log sample_cardio_log
    (sample_exercise None) row_bridge (λ _, eq_refl) eq_refl eq_refl)).
Defined.

Lemma AppTsx_failure_status_rejected_witness :
  @AppTsx.GoogleSheetsAdapter.saveStrengthLog
    (sample_runtime {| Http.ok := false; Http.text := body_ok_only |})
    sample_log
  = Err (Error "saveStrengthLog failed").
Proof.
  exact (proj1 (proj2 (proj2 (proj2 (@AppTsx_failure_status_rejected
    (sample_runtime {| Http.ok := false; Http.text := body_ok_only |})
    {| Http.ok := false; Http.text := body_ok_only |} "Day 1"
    sample_log sample_cardio_log (sample_exercise None) row_bridge
    (λ _, eq_refl) eq_refl))))).
Defined.

Lemma fetch_rejection_propagates_witness :
  @Part000.GoogleSheetsAdapter.listCardio offline None = Err TypeError
  /\ @AppTsx.GoogleSheetsAdapter.addPlanRow offline row_bridge = Err TypeError.
Proof.
  pose proof (@fetch_rejection_propagates offline TypeError "Day 1" None
    sample_log sample_cardio_log (sample_exercise None) row_bridge
    (λ _, eq_refl)) as [Hold Hnew].
  split.
  - exact (proj1 (proj2 (proj2 Hnew))).
  - exact (proj2 (proj2 (proj2 (proj2 (proj2 (proj2 Hold)))))).
Defined.

Lemma listDays_maps_days_witness :
  @Part000.GoogleSheetsAdapter.listDays
    (bridge_answering {| Http.ok := true; Http.text := body_days |} days_value)
  = Ok [("Day 1", Some (Js.JStr "Glutes + Core"))].
Proof.
  refine (proj2 (proj1 (@listDays_maps_days
    (bridge_answering {| Http.ok := true; Http.text := body_days |} days_value)
    {| Http.ok := true; Http.text := body_days |}
    [("days", Js.JArr [Js.JObj [("day_id", Js.JStr "Day 1");
                                ("day_name", Js.JStr "Glutes + Core")]])]
    (λ _, eq_refl) eq_refl eq_refl) _ eq_refl _)).
  constructor; [discriminate | constructor].
Defined.

Lemma getPlanForDay_defaults_witness :
  @AppTsx.GoogleSheetsAdapter.getPlanForDay
    (bridge_answering {| Http.ok := true; Http.text := "{}" |} (Js.JObj []))
    "Day 9"
  = Ok (None, None)
  /\ exists plan exercises,
       @Part000.GoogleSheetsAdapter.getPlanForDay
         (bridge_answering {| Http.ok := true; Http.text := "{}" |}
            (Js.JObj [])) "Day 9"
       = Ok (plan, exercises)
       /\ plan = Some (Js.JArr []) /\ exercises = Some (Js.JObj []).
Proof.
  destruct (@getPlanForDay_defaults
    (bridge_answering {| Http.ok := true; Http.text := "{}" |} (Js.JObj []))
    {| Http.ok := true; Http.text := "{}" |} [] "Day 9"
    (λ _, eq_refl) eq_refl) as [(plan & exercises & Hres & _ & _ & _ & Hp & _ & He) Hold].
  split; [exact (Hold eq_refl)|].
  exists plan, exercises. split; [exact Hres|].
  split; [exact (Hp eq_refl) | exact (He eq_refl)].
Defined.

(** ** Placement of the artwork in the icons *)

Lemma frames_checked_up_to_4096 :
  forallb (IcoBundle.checked IcoBundle.frame IcoBundle.fits) (seqZ 1 4096)
  = true.
Proof. vm_compute. reflexivity. Qed.

(** X17. For every size from 1 to 4096 pixels and either background,
    [renderPadded] places the artwork inside the canvas, and centres it to
    the pixel: the margin on the left (and top) is the margin on the right
    (and bottom) or one pixel more. *)
Theorem renderPadded_fits_and_centres :
  forall (size : Z) (maskable : bool),
    1 <= size <= 4096 ->
    exists c,
      GenIcons.renderPadded size maskable = Some c
      /\ 0 <= GenIcons.left c /\ 0 < GenIcons.inner c
      /\ GenIcons.left c + GenIcons.inner c <= size
      /\ GenIcons.top c = GenIcons.left c
      /\ let right := size - GenIcons.inner c - GenIcons.left c in
         right <= GenIcons.left c <= right + 1.
Proof.
  intros size maskable Hsize.
  assert (Hin : size ∈ seqZ 1 4096) by (apply elem_of_seqZ; lia).
  pose proof agrees_up_to_4096 as Hall.
  rewrite forallb_forall in Hall.
  apply list_elem_of_In, Hall in Hin.
  unfold GenIcons.agrees in Hin.
  apply andb_prop in Hin as [Hf Ht].
  apply bool_decide_eq_true in Hf, Ht.
  destruct maskable; (eexists; split; [eassumption|]); cbn;
    unfold GenIcons.inner_exact, GenIcons.offset_exact;
    Z.div_mod_to_equations; lia.
Qed.

Lemma renderPadded_fits_and_centres_witness :
  exists c,
    GenIcons.renderPadded 180 false = Some c
    /\ 0 <= GenIcons.left c /\ 0 < GenIcons.inner c
    /\ GenIcons.left c + GenIcons.inner c <= 180
    /\ GenIcons.top c = GenIcons.left c
    /\ let right := 180 - GenIcons.inner c - GenIcons.left c in
       right <= GenIcons.left c <= right + 1.
Proof. apply (renderPadded_fits_and_centres 180 false). lia. Defined.

(** X18. Every frame of the icon bundle, for any size from 1 to 4096 pixels,
    has its artwork inside the canvas.  For the three sizes of the bundle the
    frame is what [renderPadded] gives for an opaque icon of that size, with
    equal margins on both sides; the two ways of centring are not the same
    in general: at 512 pixels the frame would start at 61 where
    [renderPadded] starts at 62. *)
Theorem ico_frames_placement :
  (forall s : Z, 1 <= s <= 4096 ->
     exists c, IcoBundle.frame s = Some c
               /\ GenIcons.width c = s /\ GenIcons.height c = s
               /\ 0 <= GenIcons.left c
               /\ GenIcons.left c + GenIcons.inner c <= s)
  /\ Forall (λ s, IcoBundle.frame s = GenIcons.renderPadded s false
                  /\ exists c, IcoBundle.frame s = Some c
                               /\ 2 * GenIcons.left c + GenIcons.inner c = s)
       IcoBundle.icoSizes
  /\ GenIcons.left <$> IcoBundle.frame 512 = Some 61
  /\ GenIcons.left <$> GenIcons.renderPadded 512 false = Some 62.
Proof.
  split; [|split; [|by vm_compute]].
  - intros s Hs.
    assert (Hin : s ∈ seqZ 1 4096) by (apply elem_of_seqZ; lia).
    pose proof frames_checked_up_to_4096 as Hall.
    rewrite forallb_forall in Hall.
    apply list_elem_of_In, Hall in Hin. unfold IcoBundle.checked in Hin.
    destruct (IcoBundle.frame s) as [c|] eqn:Hc; [|done].
    exists c. split; [done|].
    assert (Hsize : GenIcons.width c = s /\ GenIcons.height c = s).
    { unfold IcoBundle.frame in Hc.
      apply bind_Some in Hc as (i & _ & Hc).
      apply bind_Some in Hc as (o & _ & Hc).
      by injection Hc as <-. }
    destruct Hsize as [Hw Hh]. unfold IcoBundle.fits in Hin.
    rewrite Hw in Hin.
    repeat (apply andb_prop in Hin as [Hin ?]).
    repeat split; try done; lia.
  - unfold IcoBundle.icoSizes.
    repeat (constructor; [split; [by vm_compute|];
      eexists; split; [by vm_compute | by vm_compute]|]).
    constructor.
Qed.

Lemma ico_frames_placement_witness :
  exists c, IcoBundle.frame 48 = Some c
            /\ GenIcons.width c = 48 /\ GenIcons.height c = 48
            /\ 0 <= GenIcons.left c
            /\ GenIcons.left c + GenIcons.inner c <= 48.
Proof. apply (proj1 ico_frames_placement 48). lia. Defined.

(** ** Provisioning messages *)


Section ProvisionMessages.

Context `{Runtime}.


End ProvisionMessages.


(** ** What a card shows *)

Lemma or_lit_not_empty (a : option string) (lit : string) :
  lit ≠ "" -> Js.or_lit a lit ≠ "".
Proof.
  intros Hlit. destruct a as [s|]; cbn; [|done].
  destruct (String.eqb s "") eqn:Hs; [done|]. by apply String.eqb_neq.
Qed.

(** X20. No card rendered for a plan has an empty equipment line or an
    empty video query, and a prescription that is a text is never empty.
    The prescription is the text that the precedence gives (the block's
    override for the exercise, else its default_reps, else "as assigned")
    whenever the block owns an override under the id of the card's exercise
    or that id names no member that every object inherits; otherwise it is
    the inherited member, which is no text.  On a card made for a record of
    the catalogue the equipment line reads "bodyweight" exactly when the
    record has no equipment (or that very text), and the query is the
    record's yt_query when that is non-empty and its name followed by
    " exercise" otherwise.  The set number of a card lies between 1 and the
    set count of its block. *)
Theorem rendered_cards_have_text :
  forall (plan : list PlanRow.t) (exMap : ExMap.t)
         (rendered : list (string * list DayWorkout.card))
         (title : string) (cards : list DayWorkout.card) (c : DayWorkout.card),
    DayWorkout.render plan exMap = Ok rendered ->
    (title, cards) ∈ rendered ->
    c ∈ cards ->
    DayWorkout.equipment_text c ≠ ""
    /\ DayWorkout.ytQuery c ≠ ""
    /\ (forall s, DayWorkout.prescribed_text c = Js.Str s -> s ≠ "")
    /\ (exists bs b,
          DayWorkout.blocks plan exMap = Ok bs
          /\ b ∈ bs
          /\ DayWorkout.name b = title
          /\ DayWorkout.exercise c ∈ DayWorkout.block_exercises b
          /\ 1 <= DayWorkout.setNumber c <= DayWorkout.setCount b
          /\ let id := Js.String_str (ExMap.id (DayWorkout.exercise c)) in
             let override := DayWorkout.block_prescribed b !! id in
             (is_Some override \/ Js.Object_prototype id = None ->
              DayWorkout.prescribed_text c
              = Js.Str (Js.or_lit
                          (Js.or_str override
                             (ExMap.default_reps (DayWorkout.exercise c)))
                          "as assigned"))
             /\ (forall m, override = None ->
                           Js.Object_prototype id = Some m ->
                           DayWorkout.prescribed_text c = Js.NoText m))
    /\ (forall e, DayWorkout.exercise c = ExMap.Entry e ->
          (DayWorkout.equipment_text c = "bodyweight"
           <-> Exercise.equipment e = "" \/ Exercise.equipment e = "bodyweight")
          /\ (forall q, Exercise.yt_query e = Some q -> q ≠ "" ->
                        DayWorkout.ytQuery c = q)
          /\ (Exercise.yt_query e = None \/ Exercise.yt_query e = Some "" ->
              DayWorkout.ytQuery c = Exercise.name e +:+ " exercise")).
Proof.
  intros plan exMap rendered title cards c (bs & Hbs & ->)%render_Ok
    Hrender Hc.
  apply list_elem_of_fmap in Hrender as (b & Hblock & Hb).
  injection Hblock as -> ->.
  apply list_elem_of_bind in Hc as (n & Hc & Hn).
  apply list_elem_of_bind in Hc as (ex & Hc & Hex).
  apply list_elem_of_singleton in Hc as ->.
  apply elem_of_seqZ in Hn.
  cbn [DayWorkout.ExerciseCard DayWorkout.exercise DayWorkout.setNumber
       DayWorkout.equipment_text DayWorkout.prescribed_text DayWorkout.ytQuery].
  assert (Hquery : forall n : string, n +:+ " exercise" ≠ "").
  { intros []; discriminate. }
  split; [by apply or_lit_not_empty|].
  split; [by apply or_lit_not_empty|].
  split.
  { intros s. unfold DayWorkout.prescription, Js.read.
    destruct (DayWorkout.block_prescribed b !! _) as [s0|].
    - intros [= <-]. by apply or_lit_not_empty.
    - destruct (Js.Object_prototype _); [done|].
      intros [= <-]. by apply or_lit_not_empty. }
  split.
  { exists bs, b. split; [done|]. split; [done|]. split; [done|].
    split; [done|]. split; [lia|]. cbn zeta. split.
    - apply prescription_precedence.
    - intros m Hnone Hm. unfold DayWorkout.prescription, Js.read.
      by rewrite Hnone, Hm. }
  intros e ->. cbn [ExMap.equipment ExMap.yt_query ExMap.name Js.String_str
                    default].
  split.
  { cbn [Js.or_lit].
    destruct (String.eqb (Exercise.equipment e) "") eqn:Heq.
    - apply String.eqb_eq in Heq. split; [by left | done].
    - apply String.eqb_neq in Heq. split; [by right | by intros [? | ?]]. }
  split; [intros q -> Hq; by apply or_lit_nonempty|].
  by intros [-> | ->].
Qed.

Lemma rendered_cards_have_text_witness :
  DayWorkout.equipment_text sample_card ≠ ""
  /\ DayWorkout.ytQuery sample_card ≠ ""
  /\ DayWorkout.prescribed_text sample_card = Js.Str "8 to 10".
Proof.
  assert (Hrender : DayWorkout.render [row_plain]
                      (MockDb.exercises MockDb.MOCK_DB)
                    = Ok [("Glute Strength Block", [sample_card])]).
  { unfold DayWorkout.render. rewrite blocks_single by reflexivity.
    vm_compute. reflexivity. }
  pose proof (rendered_cards_have_text [row_plain]
    (MockDb.exercises MockDb.MOCK_DB) _ "Glute Strength Block" [sample_card]
    sample_card Hrender (list_elem_of_here _ _) (list_elem_of_here _ _))
    as (He & Hq & _ & (bs & b & Hbs & Hb & _ & _ & _ & Hp & _) & _).
  split; [exact He|]. split; [exact Hq|].
  rewrite (Hp (or_intror eq_refl)).
  assert (Hblocks : DayWorkout.blocks [row_plain]
                      (MockDb.exercises MockDb.MOCK_DB)
                    = Ok [DayWorkout.Build_block "Glute Strength Block" 1
                            [ExMap.Entry MockDb.ex_glute_bridge] ∅]).
  { rewrite blocks_single by reflexivity. vm_compute. reflexivity. }
  rewrite Hblocks in Hbs. injection Hbs as <-.
  apply list_elem_of_singleton in Hb as ->. reflexivity.
Defined.

(** ** Plan rows added to the mock database *)

(** X21. A plan row added to the mock database shows up in the plan of its
    own day only: the plans of the other days are what they were, in both
    builds; for its own day the second build returns it after the rows
    already stored, src/App.tsx returns it sorted in among them.  The
    catalogue returned is not touched and the write reports success. *)
Theorem mock_addPlanRow_shows_in_its_day :
  forall (row : PlanRow.t) (day : string) (db : MockDb.t),
    let db' := (MockDb.addPlanRow row db).2 in
    (MockDb.addPlanRow row db).1 = Ok true
    /\ (PlanRow.day_id row ≠ day ->
        Part000.MockAdapter.getPlanForDay day db'
          = Part000.MockAdapter.getPlanForDay day db
        /\ AppTsx.MockAdapter.getPlanForDay day db'
           = AppTsx.MockAdapter.getPlanForDay day db)
    /\ (PlanRow.day_id row = day ->
        (Part000.MockAdapter.getPlanForDay day db').1
          = (Part000.MockAdapter.getPlanForDay day db).1 ++ [row]
        /\ (AppTsx.MockAdapter.getPlanForDay day db').1
           ≡ₚ row :: (AppTsx.MockAdapter.getPlanForDay day db).1
        /\ StronglySorted plan_row_le
             (AppTsx.MockAdapter.getPlanForDay day db').1)
    /\ (Part000.MockAdapter.getPlanForDay day db').2 = MockDb.exercises db
    /\ (AppTsx.MockAdapter.getPlanForDay day db').2 = MockDb.exercises db.
Proof.
  intros row day db. cbv zeta.
  unfold Part000.MockAdapter.getPlanForDay, AppTsx.MockAdapter.getPlanForDay,
    MockDb.addPlanRow.
  cbn [fst snd MockDb.plan MockDb.exercises].
  rewrite filter_app, filter_cons, filter_nil.
  split; [done|]. split; [|split; [|done]].
  - intros Hday. by rewrite decide_False, app_nil_r.
  - intros Hday. rewrite decide_True by done. split; [done|]. split.
    + rewrite !sort_Permutation. by rewrite Permutation_app_comm.
    + set (cmp := λ a b : PlanRow.t,
        if PlanRow.block_order a - PlanRow.block_order b =? 0
        then PlanRow.set_number a - PlanRow.set_number b
        else PlanRow.block_order a - PlanRow.block_order b).
      assert (Hle : forall a b, cmp a b <= 0 <-> plan_row_le a b).
      { intros a b. unfold cmp, plan_row_le.
        destruct (Z.eqb_spec (PlanRow.block_order a - PlanRow.block_order b) 0);
          lia. }
      eapply StronglySorted_impl; [intros a b; apply Hle|].
      apply sort_sorted.
      * intros a b. rewrite !Hle. unfold plan_row_le. lia.
      * intros a b c. rewrite !Hle. unfold plan_row_le. lia.
Qed.

Lemma mock_addPlanRow_shows_in_its_day_witness :
  (Part000.MockAdapter.getPlanForDay "Day 1"
     (MockDb.addPlanRow row_plain MockDb.MOCK_DB).2).1
  = (Part000.MockAdapter.getPlanForDay "Day 1" MockDb.MOCK_DB).1 ++ [row_plain]
  /\ Part000.MockAdapter.getPlanForDay "Day 2"
       (MockDb.addPlanRow row_plain MockDb.MOCK_DB).2
     = Part000.MockAdapter.getPlanForDay "Day 2" MockDb.MOCK_DB.
Proof.
  pose proof (mock_addPlanRow_shows_in_its_day row_plain "Day 1"
    MockDb.MOCK_DB) as (_ & _ & Hsame & _).
  pose proof (mock_addPlanRow_shows_in_its_day row_plain "Day 2"
    MockDb.MOCK_DB) as (_ & Hother & _).
  split.
  - exact (proj1 (Hsame eq_refl)).
  - refine (proj1 (Hother _)). discriminate.
Defined.
